(** * recipe-app: the recipe view layer (recipe/views.py)

    A shallow embedding of [RecipeViewSet], [BaseRecipeAttrViewSet],
    [TagViewSet] and [IngredientViewSet], together with the parts of
    Python, Django's ORM and Django REST framework that these views call:
    [str.split], [int], [QueryDict.get], keyword lookups of
    [QuerySet.filter], [order_by], [distinct], token authentication,
    the [IsAuthenticated] permission and the generic view mixins. *)

From stdpp Require Import base decidable option list sorting strings gmap.
From Stdlib Require Import ZArith Lia Ascii.

Local Open Scope Z_scope.

(** ** Exceptions and results *)

(** The exceptions that the modelled code can raise.  [ValueError] carries
    the offending literal, [FieldError] the keyword that did not resolve. *)
Inductive exception : Type :=
  | ValueError (literal : string)
  | FieldError (keyword : string)
  | Http404
  | MultipleObjectsReturned
  | NotAuthenticated
  | AuthenticationFailed
  | PermissionDenied
  | ValidationError (field : string)
  | IntegrityError (column : string)
  | NotModelled (what : string).

Inductive result (A : Type) : Type :=
  | Ok (a : A)
  | Raise (e : exception).
Arguments Ok {A} a.
Arguments Raise {A} e.

(** Sequencing: an exception skips the rest.  With these instances the
    notation [x ← r; k] reads as in the source's straight-line code. *)
Global Instance result_ret : MRet result := λ A a, Ok a.
Global Instance result_bind : MBind result := λ A B k r,
  match r with
  | Ok a => k a
  | Raise e => Raise e
  end.

(** [[f(x) for x in xs]]: evaluated left to right, the first exception
    aborts the comprehension. *)
Fixpoint comprehension {A B} (f : A → result B) (xs : list A) : result (list B) :=
  match xs with
  | [] => Ok []
  | x :: xs' =>
      y ← f x;
      ys ← comprehension f xs';
      Ok (y :: ys)
  end.

Definition is_Ok {A} (r : result A) : bool :=
  match r with Ok _ => true | Raise _ => false end.

(** ** Python builtins *)

Module Py.

(** [s.startswith(p)] *)
Fixpoint startswith (p s : string) : bool :=
  match p, s with
  | EmptyString, _ => true
  | String a p', String b s' => bool_decide (a = b) && startswith p' s'
  | String _ _, EmptyString => false
  end.

(** Scanner of [str.split(sep)]: [skip] counts the characters of a
    separator occurrence still to be dropped, [cur] is the current piece
    in reverse. *)
Fixpoint split_go (sep : string) (skip : nat) (cur : string) (s : string)
  : list string :=
  match s with
  | EmptyString => [String.rev cur]
  | String c s' =>
      match skip with
      | S k => split_go sep k cur s'
      | O =>
          if startswith sep s
          then String.rev cur :: split_go sep (String.length sep - 1) EmptyString s'
          else split_go sep O (String c cur) s'
      end
  end.

(** [s.split(sep)] for a non-empty separator (every call site passes a
    literal one): occurrences are found left to right without overlap,
    empty pieces are kept, and the result is never empty. *)
Definition split (sep s : string) : list string := split_go sep O EmptyString s.

(** The white space that [int] skips at the two ends of a literal.  A
    character of a string stands for the code point of its number; of the
    code points below 256 these are tab, line feed, vertical tab, form
    feed, carriage return, space, U+0085 and U+00A0.  (U+001C to U+001F,
    which [str.isspace] accepts, are refused by [int].) *)
Definition isspace (c : ascii) : bool :=
  Ascii.is_space c
  || bool_decide (c = "133"%char) || bool_decide (c = "160"%char).

(** The literal without the white space in front of it. *)
Fixpoint lstrip (s : string) : string :=
  match s with
  | EmptyString => EmptyString
  | String c s' => if isspace c then lstrip s' else s
  end.

(** The literal without the white space at its two ends. *)
Definition strip (s : string) : string :=
  String.rev (lstrip (String.rev (lstrip s))).

(** [sys.int_max_str_digits], at its default: the largest number of
    decimal digits that [int] reads and [str] writes. *)
Definition int_max_str_digits : Z := 4300.

(** The number of decimal digits of a literal; signs and underscores do
    not count, leading zeros do. *)
Fixpoint ndigits (s : string) : Z :=
  match s with
  | EmptyString => 0
  | String c s' =>
      match Ascii.is_nat c with Some _ => 1 | None => 0 end + ndigits s'
  end.

(** Digits of a decimal literal; a single underscore may separate two
    digits.  [prev] tells whether the previous character was a digit. *)
Fixpoint digits (prev : bool) (acc : Z) (s : string) : option Z :=
  match s with
  | EmptyString => if prev then Some acc else None
  | String c s' =>
      match Ascii.is_nat c with
      | Some d => digits true (10 * acc + Z.of_nat d) s'
      | None =>
          if bool_decide (c = "_"%char) && prev
          then digits false acc s'
          else None
      end
  end.

(** [int(s)] on a string of code points below 256: the white space at the
    two ends is dropped, one sign is allowed, then come decimal digits with
    single underscores between them.  Anything else raises [ValueError],
    and so does a literal of more than [int_max_str_digits] digits.  (The
    decimal digits of other scripts lie above 255 and are outside the
    strings of this model.) *)
Definition int (s : string) : result Z :=
  let body := strip s in
  let '(negative, literal) :=
    match body with
    | String "-" rest => (true, rest)
    | String "+" rest => (false, rest)
    | _ => (false, body)
    end in
  match digits false 0 literal with
  | Some z =>
      if decide (ndigits literal ≤ int_max_str_digits)
      then Ok (if negative : bool then - z else z)
      else Raise (ValueError s)
  | None => Raise (ValueError s)
  end.

(** Truth value of a [str] or [None]: only a non-empty string is true. *)
Definition truthy (v : option string) : bool :=
  match v with
  | None => false
  | Some EmptyString => false
  | Some (String _ _) => true
  end.

(** The character of a decimal digit, [chr(ord('0') + d)]. *)
Definition digit_char (d : Z) : ascii := ascii_of_nat (48 + Z.to_nat d).

(** The decimal digits of a natural number in front of [acc], the last
    digit first; [fuel] bounds the number of digits. *)
Fixpoint str_go (fuel : nat) (n : Z) (acc : string) : string :=
  match fuel with
  | O => acc
  | S f =>
      let acc' := String (digit_char (n mod 10)) acc in
      if n <? 10 then acc' else str_go f (n / 10) acc'
  end.

(** The decimal writing of an integer: its digits without leading zeros,
    after a minus sign when it is negative.  A number below [2^k] has at
    most [k] digits. *)
Definition decimal (z : Z) : string :=
  if z <? 0
  then String "-" (str_go (S (Z.to_nat (Z.log2 (- z)))) (- z) EmptyString)
  else str_go (S (Z.to_nat (Z.log2 z))) z EmptyString.

(** [str(z)] of an integer, as an f-string formats it: its decimal
    writing; an integer of more than [int_max_str_digits] digits is
    refused with [ValueError]. *)
Definition str (z : Z) : result string :=
  let s := decimal z in
  if decide (ndigits s ≤ int_max_str_digits) then Ok s
  else Raise (ValueError s).

(** [sep.join(pieces)] *)
Fixpoint join (sep : string) (pieces : list string) : string :=
  match pieces with
  | [] => EmptyString
  | [p] => p
  | p :: ps => p +:+ sep +:+ join sep ps
  end.

(** [all(P(c) for c in s)] *)
Fixpoint all_chars (P : ascii → bool) (s : string) : bool :=
  match s with
  | EmptyString => true
  | String c s' => P c && all_chars P s'
  end.

End Py.

(** ** Data model (core/models.py) *)

(** Modelled from the spec: core/models.py is not part of the sources at
    hand.  The entities and their fields are those of the data model, under
    the names the views and the tests use ([user] for the owner, [tags],
    [ingredients], [name], [title], ...).  A price is a number of
    hundredths; an image is its stored path, empty when there is none. *)

Module User.
Record t : Type := mk { id : Z; email : string }.
End User.

(** A [Tag] or an [Ingredient]: both have the same three columns. *)
Module Attr.
Record t : Type := mk { id : Z; name : string; user : Z }.
End Attr.

Module Recipe.
Record t : Type := mk {
  id : Z;
  title : string;
  time_minutes : Z;
  price : Z;
  description : string;
  link : string;
  user : Z;
  image : string;
  tags : list Z;
  ingredients : list Z
}.
End Recipe.

Global Instance User_eq_dec : EqDecision User.t.
Proof. solve_decision. Defined.
Global Instance Attr_eq_dec : EqDecision Attr.t.
Proof. solve_decision. Defined.
Global Instance Recipe_eq_dec : EqDecision Recipe.t.
Proof. solve_decision. Defined.

Inductive ModelName : Type := UserM | TagM | IngredientM | RecipeM.

Definition row (m : ModelName) : Type :=
  match m with
  | UserM => User.t
  | TagM => Attr.t
  | IngredientM => Attr.t
  | RecipeM => Recipe.t
  end.

Global Instance row_eq_dec m : EqDecision (row m).
Proof. destruct m; simpl; apply _. Defined.

(** The stored tables.  [tokens] is the table of the token application:
    key and user id. *)
Record Db : Type := mkDb {
  users : list User.t;
  tokens : list (string * Z);
  tag_rows : list Attr.t;
  ingredient_rows : list Attr.t;
  recipe_rows : list Recipe.t
}.

(** ** Django's ORM: keyword lookups *)

Module ORM.

(** A field of a model, with the way to read it off a row.  A foreign key
    and a many-to-many field store the primary keys of their targets. *)
Inductive Field (A : Type) : Type :=
  | IntegerField (get : A → Z)
  | TextField (get : A → string)
  | ForeignKey (to : ModelName) (get : A → Z)
  | ManyToManyField (to : ModelName) (get : A → list Z)
  | ReverseRelation (to : ModelName).
Arguments IntegerField {A} get.
Arguments TextField {A} get.
Arguments ForeignKey {A} to get.
Arguments ManyToManyField {A} to get.
Arguments ReverseRelation {A} to.

(** Names known to [Model._meta.get_field], attribute names of foreign
    keys and reverse relations included. *)
Definition fields (m : ModelName) : list (string * Field (row m)) :=
  match m with
  | UserM =>
      [("id", IntegerField User.id);
       ("email", TextField User.email);
       ("recipe", ReverseRelation RecipeM);
       ("tag", ReverseRelation TagM);
       ("ingredient", ReverseRelation IngredientM)]
  | TagM =>
      [("id", IntegerField Attr.id);
       ("name", TextField Attr.name);
       ("user", ForeignKey UserM Attr.user);
       ("user_id", IntegerField Attr.user);
       ("recipe", ReverseRelation RecipeM)]
  | IngredientM =>
      [("id", IntegerField Attr.id);
       ("name", TextField Attr.name);
       ("user", ForeignKey UserM Attr.user);
       ("user_id", IntegerField Attr.user);
       ("recipe", ReverseRelation RecipeM)]
  | RecipeM =>
      [("id", IntegerField Recipe.id);
       ("title", TextField Recipe.title);
       ("time_minutes", IntegerField Recipe.time_minutes);
       ("price", IntegerField Recipe.price);
       ("description", TextField Recipe.description);
       ("link", TextField Recipe.link);
       ("user", ForeignKey UserM Recipe.user);
       ("user_id", IntegerField Recipe.user);
       ("image", TextField Recipe.image);
       ("tags", ManyToManyField TagM Recipe.tags);
       ("ingredients", ManyToManyField IngredientM Recipe.ingredients)]
  end.

Fixpoint assoc {V} (k : string) (l : list (string * V)) : option V :=
  match l with
  | [] => None
  | (k', v) :: l' => if decide (k = k') then Some v else assoc k l'
  end.

Definition get_field (m : ModelName) (name : string) : option (Field (row m)) :=
  assoc name (fields m).

(** The model a relation leads to; [None] for a concrete column. *)
Definition related_model {A} (f : Field A) : option ModelName :=
  match f with
  | IntegerField _ | TextField _ => None
  | ForeignKey to _ | ManyToManyField to _ | ReverseRelation to => Some to
  end.

(** [Query.names_to_path], the walk: names are resolved as fields as long
    as possible ([pk] stands for the primary key), relations are followed,
    and what is left over is kept as lookups.  The result is the pair of
    the resolved field names and the left-over names. *)
Fixpoint walk (m : ModelName) (names : list string) : list string * list string :=
  match names with
  | [] => ([], [])
  | n :: rest =>
      let n' := if decide (n = "pk") then "id" else n in
      match get_field m n' with
      | None => ([], names)
      | Some f =>
          match related_model f with
          | None => ([n'], rest)
          | Some m' => let '(p, l) := walk m' rest in (n' :: p, l)
          end
      end
  end.

(** [Query.solve_lookup_type] on a keyword: split at [__]; a keyword
    whose first name is no field of the model raises [FieldError]
    ("Cannot resolve keyword ... into field"). *)
Definition solve_lookup_type (m : ModelName) (keyword : string)
  : result (list string * list string) :=
  match walk m (Py.split "__" keyword) with
  | ([], _) => Raise (FieldError keyword)
  | (p, l) => Ok (p, l)
  end.

(** What a resolved path reads off a row of the model it starts from:
    one integer, one string, or the set of primary keys joined through a
    many-to-many table.  Paths that need another table are not
    evaluated by this model. *)
Inductive Column (A : Type) : Type :=
  | IntCol (get : A → Z)
  | StrCol (get : A → string)
  | IntSetCol (get : A → list Z).
Arguments IntCol {A} get.
Arguments StrCol {A} get.
Arguments IntSetCol {A} get.

Definition path_column (m : ModelName) (path : list string) : option (Column (row m)) :=
  match path with
  | [c] =>
      match get_field m c with
      | Some (IntegerField g) => Some (IntCol g)
      | Some (TextField g) => Some (StrCol g)
      | Some (ForeignKey _ g) => Some (IntCol g)
      | Some (ManyToManyField _ g) => Some (IntSetCol g)
      | _ => None
      end
  | [c; "id"] =>
      match get_field m c with
      | Some (ForeignKey _ g) => Some (IntCol g)
      | Some (ManyToManyField _ g) => Some (IntSetCol g)
      | _ => None
      end
  | _ => None
  end.

(** Right-hand sides of keyword arguments. *)
Inductive value : Type :=
  | VInt (z : Z)
  | VStr (s : string)
  | VList (zs : list Z)
  | VModel (pk : Z)
  | VNames (names : list string).

(** The number of joined rows of [r] that satisfy the lookup: 0 or 1 for
    a column of the model itself, one per matching association for a
    many-to-many path.  Only [exact] (the default) and [in] are modelled. *)
Definition joined_matches {A} (col : Column A) (lookups : list string) (rhs : value)
  : option (A → nat) :=
  match lookups with
  | [] | ["exact"] =>
      match col, rhs with
      | IntCol g, (VInt z | VModel z) =>
          Some (λ r, if decide (g r = z) then 1%nat else 0%nat)
      | StrCol g, VStr s =>
          Some (λ r, if decide (g r = s) then 1%nat else 0%nat)
      | IntSetCol g, (VInt z | VModel z) =>
          Some (λ r, length (filter (λ i, i = z) (g r)))
      | _, _ => None
      end
  | ["in"] =>
      match col, rhs with
      | IntCol g, VList zs =>
          Some (λ r, if decide (g r ∈ zs) then 1%nat else 0%nat)
      | IntSetCol g, VList zs =>
          Some (λ r, length (filter (λ i, i ∈ zs) (g r)))
      | _, _ => None
      end
  | _ => None
  end.

(** [QuerySet.filter(keyword=rhs)].  The keyword is resolved when the
    call is made, so an unknown keyword raises there and then.  A row
    comes out once per joined row that matches. *)
Definition filter (m : ModelName) (keyword : string) (rhs : value)
    (rows : list (row m)) : result (list (row m)) :=
  '(path, lookups) ← solve_lookup_type m keyword;
  match path_column m path with
  | None => Raise (NotModelled keyword)
  | Some col =>
      match joined_matches col lookups rhs with
      | None => Raise (NotModelled keyword)
      | Some n => Ok (r ← rows; replicate (n r) r)
      end
  end.

(** The order of [ORDER BY key] on rows, ascending or descending. *)
Definition key_order {A K} (le : relation K) (key : A → K) (desc : bool)
  : relation A :=
  λ a b, if desc then le (key b) (key a) else le (key a) (key b).

Global Instance key_order_dec {A K} (le : relation K) `{!RelDecision le}
  (key : A → K) (desc : bool) : RelDecision (key_order le key desc).
Proof. intros a b. unfold key_order. destruct desc; apply _. Defined.

(** [QuerySet.order_by(spec)] on one field; a leading [-] means
    descending.  Names are compared character by character; the order
    among rows of equal key, which the database is free to choose, is the
    one the merge sort leaves. *)
Definition order_by (m : ModelName) (spec : string) (rows : list (row m))
  : result (list (row m)) :=
  let '(desc, name) :=
    match spec with
    | String "-" n => (true, n)
    | _ => (false, spec)
    end in
  '(path, lookups) ← solve_lookup_type m name;
  match lookups, path_column m path with
  | [], Some (IntCol g) => Ok (merge_sort (key_order Z.le g desc) rows)
  | [], Some (StrCol g) => Ok (merge_sort (key_order String.le g desc) rows)
  | _, _ => Raise (NotModelled spec)
  end.

(** [QuerySet.distinct()]: equal rows are kept once, the order stays. *)
Definition distinct (m : ModelName) (rows : list (row m)) : list (row m) :=
  remove_dups rows.

(** [Model.objects.all()] *)
Definition all (m : ModelName) (db : Db) : list (row m) :=
  match m with
  | UserM => users db
  | TagM => tag_rows db
  | IngredientM => ingredient_rows db
  | RecipeM => recipe_rows db
  end.

End ORM.

(** ** Requests *)

(** [request.query_params]: the pairs of the query string in order.
    [get] answers the last value given for the key, [None] without one. *)
Module QueryDict.
Definition t : Type := list (string * string).

Fixpoint get (key : string) (q : t) : option string :=
  match q with
  | [] => None
  | (k, v) :: q' =>
      match get key q' with
      | Some v' => Some v'
      | None => if decide (k = key) then Some v else None
      end
  end.
End QueryDict.

(** What arrives over HTTP: the key of the [Authorization: Token] header,
    if there is one, the query string and the parsed body. *)
Record HttpRequest : Type := mkHttp {
  authorization : option string;
  query_params : QueryDict.t;
  data : gmap string ORM.value
}.

(** The request a view method sees once authentication has run. *)
Record Request : Type := mkRequest {
  http : HttpRequest;
  user : User.t
}.

(** The view instance: its request, the action being served and the
    primary key of the URL (detail routes). *)
Record Self : Type := mkSelf {
  request : Request;
  action : string;
  kwargs_pk : Z
}.

(** ** Handlers: state and exceptions *)

(** A handler runs against the database and either returns or raises; the
    database that comes out is the one left at that point. *)
Definition M (A : Type) : Type := Db → result A * Db.

Global Instance M_ret : MRet M := λ A a db, (Ok a, db).
Global Instance M_bind : MBind M := λ A B k c db,
  match c db with
  | (Ok a, db') => k a db'
  | (Raise e, db') => (Raise e, db')
  end.

(** A read of the database. *)
Definition query {A} (q : Db → result A) : M A := λ db, (q db, db).

(** A write that cannot fail. *)
Definition modify (f : Db → Db) : M unit := λ db, (Ok tt, f db).

Definition raise {A} (e : exception) : M A := λ db, (Raise e, db).

(** ** Serializers (recipe/serializers.py) *)

Inductive SerializerClass : Type :=
  | RecipeSerializer
  | RecipeDetailSerializer
  | TagSerializer
  | IngredientSerializer.

Global Instance SerializerClass_eq_dec : EqDecision SerializerClass.
Proof. solve_decision. Defined.

Inductive AttrKind : Type := TagK | IngredientK.

Definition attr_rows (k : AttrKind) (db : Db) : list Attr.t :=
  match k with
  | TagK => tag_rows db
  | IngredientK => ingredient_rows db
  end.

Definition set_attr_rows (k : AttrKind) (rows : list Attr.t) (db : Db) : Db :=
  match k with
  | TagK =>
      mkDb (users db) (tokens db) rows (ingredient_rows db) (recipe_rows db)
  | IngredientK =>
      mkDb (users db) (tokens db) (tag_rows db) rows (recipe_rows db)
  end.

Definition set_recipe_rows (rows : list Recipe.t) (db : Db) : Db :=
  mkDb (users db) (tokens db) (tag_rows db) (ingredient_rows db) rows.

(** The key an auto-incremented primary key takes next, taken as the one
    after the largest key of the table.  It is above every key present, as
    the key of a database sequence is; a sequence also stays above the keys
    of deleted rows, which a table does not remember. *)
Definition next_id (ids : list Z) : Z := 1 + foldr Z.max 0 ids.

Module Serializers.
Import ORM.

(** Modelled from the spec: recipe/serializers.py is not part of the
    sources at hand; these are the field lists of the two recipe
    projections.  The summary has neither the description nor the tags
    and ingredients; the detail projection has all three. *)
Definition Meta_fields (cls : SerializerClass) : list string :=
  match cls with
  | RecipeSerializer => ["id"; "title"; "time_minutes"; "price"; "link"]
  | RecipeDetailSerializer =>
      ["id"; "title"; "time_minutes"; "price"; "link";
       "description"; "tags"; "ingredients"]
  | TagSerializer => ["id"; "name"]
  | IngredientSerializer => ["id"; "name"]
  end.

(** The rendering of one row under a field list; a related set is
    rendered by its keys. *)
Definition to_representation (m : ModelName) (fs : list string) (r : row m)
  : list (string * value) :=
  omap (λ f,
    match path_column m [f] with
    | Some (IntCol g) => Some (f, VInt (g r))
    | Some (StrCol g) => Some (f, VStr (g r))
    | Some (IntSetCol g) => Some (f, VList (g r))
    | None => None
    end) fs.

(** Modelled from the spec: the lookup of the nested relation
    reconciler, scoped to the owner and the name. *)
Definition find_owned (owner : Z) (name : string) (rows : list Attr.t)
  : option Attr.t :=
  List.find (λ a, bool_decide (Attr.user a = owner ∧ Attr.name a = name)) rows.

(** Modelled from the spec: one descriptor is resolved to the existing
    entity of that owner and name, which is reused as it is; without one,
    a new entity of that name is created under the owner. *)
Definition get_or_create (k : AttrKind) (owner : Z) (name : string) : M Attr.t :=
  λ db,
    match find_owned owner name (attr_rows k db) with
    | Some a => (Ok a, db)
    | None =>
        let a := Attr.mk (next_id (Attr.id <$> attr_rows k db)) name owner in
        (Ok a, set_attr_rows k (attr_rows k db ++ [a]) db)
    end.

(** Modelled from the spec: the descriptors of a payload are resolved in
    order. *)
Fixpoint resolve (k : AttrKind) (owner : Z) (names : list string) : M (list Attr.t) :=
  match names with
  | [] => mret []
  | n :: ns =>
      a ← get_or_create k owner n;
      rest ← resolve k owner ns;
      mret (a :: rest)
  end.

Definition set_association (k : AttrKind) (ids : list Z) (r : Recipe.t) : Recipe.t :=
  match k with
  | TagK =>
      Recipe.mk (Recipe.id r) (Recipe.title r) (Recipe.time_minutes r)
        (Recipe.price r) (Recipe.description r) (Recipe.link r)
        (Recipe.user r) (Recipe.image r) ids (Recipe.ingredients r)
  | IngredientK =>
      Recipe.mk (Recipe.id r) (Recipe.title r) (Recipe.time_minutes r)
        (Recipe.price r) (Recipe.description r) (Recipe.link r)
        (Recipe.user r) (Recipe.image r) (Recipe.tags r) ids
  end.

(** Modelled from the spec: after all descriptors are resolved, the
    association set of the recipe is replaced by exactly the resolved
    set. *)
Definition reconcile (k : AttrKind) (owner : Z) (names : list string)
    (recipe_id : Z) : M unit :=
  resolved ← resolve k owner names;
  modify (λ db,
    set_recipe_rows
      ((λ r, if decide (Recipe.id r = recipe_id)
             then set_association k (remove_dups (Attr.id <$> resolved)) r
             else r) <$> recipe_rows db)
      db).

Definition str_field (vd : gmap string value) (f : string) : string :=
  match vd !! f with Some (VStr s) => s | _ => "" end.

Definition int_field (vd : gmap string value) (f : string) : Z :=
  match vd !! f with Some (VInt z) => z | _ => 0 end.

(** [Recipe.objects.create] with keyword arguments: a new row with the next
    key whose columns are read off the keyword arguments.  The owner has to
    be there: without one the insert violates the not-null constraint, and
    anything but a user instance is refused. *)
Definition Recipe_objects_create (kwargs : gmap string value) : M Recipe.t :=
  λ db,
    match kwargs !! "user" with
    | Some (VModel u) =>
        let r :=
          Recipe.mk (next_id (Recipe.id <$> recipe_rows db))
            (str_field kwargs "title") (int_field kwargs "time_minutes")
            (int_field kwargs "price") (str_field kwargs "description")
            (str_field kwargs "link") u "" [] [] in
        (Ok r, set_recipe_rows (recipe_rows db ++ [r]) db)
    | Some _ => (Raise (ValueError "user"), db)
    | None => (Raise (IntegrityError "user_id"), db)
    end.

Definition descriptors (vd : gmap string value) (f : string) : list string :=
  match vd !! f with Some (VNames ns) => ns | _ => [] end.

(** Modelled from the spec: creation of a recipe from validated data.  The
    nested tags and ingredients are taken out, the row is created from the
    rest, and both descriptor lists are reconciled under the caller. *)
Definition create (caller : User.t) (validated_data : gmap string value)
  : M Recipe.t :=
  let tags := descriptors validated_data "tags" in
  let ingredients := descriptors validated_data "ingredients" in
  let rest := delete "ingredients" (delete "tags" validated_data) in
  recipe ← Recipe_objects_create rest;
  _ ← reconcile TagK (User.id caller) tags (Recipe.id recipe);
  _ ← reconcile IngredientK (User.id caller) ingredients (Recipe.id recipe);
  query (λ db,
    match List.find (λ r, bool_decide (Recipe.id r = Recipe.id recipe)) (recipe_rows db) with
    | Some r => Ok r
    | None => Raise Http404
    end).

(** A serializer instance as [perform_create] receives it: its class and
    the validated data of the payload. *)
Record t : Type := mk {
  cls : SerializerClass;
  context_user : User.t;
  validated_data : gmap string value
}.

(** [BaseSerializer.save] with keyword arguments and without an
    instance: the keyword
    arguments are merged over the validated data, [{**validated_data,
    **kwargs}], and the result goes to [create]. *)
Definition save (serializer : t) (kwargs : gmap string value) : M Recipe.t :=
  create (context_user serializer) (kwargs ∪ validated_data serializer).

End Serializers.

(** ** Django REST framework: authentication, permissions, generic views *)

Module DRF.
Import ORM.

Record Response : Type := mkResponse {
  status_code : Z;
  body : list (list (string * value))
}.

Inductive AuthenticationClass : Type := TokenAuthentication.
Inductive PermissionClass : Type := IsAuthenticated.

(** What a view class provides to the framework.  Which handlers a class
    mixes in is not recorded: the generic handlers below are written for
    any view class, and answer for a class only under the actions it has
    (all of them on recipes; list, update and destroy on tags and
    ingredients). *)
Record ViewSet : Type := mkViewSet {
  model : ModelName;
  authentication_classes : list AuthenticationClass;
  permission_classes : list PermissionClass;
  get_queryset : Db → Self → result (list (row model));
  get_serializer_class : Self → SerializerClass
}.

(** [TokenAuthentication.authenticate]: no header, no attempt; a key that
    is not in the token table (or whose user is gone) fails. *)
Definition authenticate (c : AuthenticationClass) (db : Db) (h : HttpRequest)
  : result (option User.t) :=
  match c with
  | TokenAuthentication =>
      match authorization h with
      | None => Ok None
      | Some key =>
          match assoc key (tokens db) with
          | None => Raise AuthenticationFailed
          | Some uid =>
              match List.find (λ u, bool_decide (User.id u = uid)) (users db) with
              | None => Raise AuthenticationFailed
              | Some u => Ok (Some u)
              end
          end
      end
  end.

(** [Request._authenticate]: the authenticators are tried in order, the
    first one that recognises the request gives the user; without one
    the request is anonymous ([None]). *)
Fixpoint perform_authentication (cs : list AuthenticationClass) (db : Db)
    (h : HttpRequest) : result (option User.t) :=
  match cs with
  | [] => Ok None
  | c :: cs' =>
      r ← authenticate c db h;
      match r with
      | Some u => Ok (Some u)
      | None => perform_authentication cs' db h
      end
  end.

(** [IsAuthenticated.has_permission] *)
Definition has_permission (p : PermissionClass) (u : option User.t) : bool :=
  match p with
  | IsAuthenticated => match u with Some _ => true | None => false end
  end.

(** [APIView.check_permissions] with [permission_denied]: a refused
    request that no authenticator recognised is unauthenticated, any
    other is forbidden. *)
Definition check_permissions (vs : ViewSet) (u : option User.t) : result unit :=
  if forallb (λ p, has_permission p u) (permission_classes vs)
  then Ok tt
  else match authentication_classes vs, u with
       | _ :: _, None => Raise NotAuthenticated
       | _, _ => Raise PermissionDenied
       end.

(** [APIView.initial]: authentication, then the permission check.  (A
    view that lets an anonymous request through is outside this model.) *)
Definition initial (vs : ViewSet) (db : Db) (h : HttpRequest) : result Request :=
  u ← perform_authentication (authentication_classes vs) db h;
  _ ← check_permissions vs u;
  match u with
  | Some u' => Ok (mkRequest h u')
  | None => Raise (NotModelled "anonymous request")
  end.

(** [exception_handler]: the status of the exceptions the framework
    answers itself; the others are raised again. *)
Definition exception_handler (e : exception) : option Z :=
  match e with
  | NotAuthenticated | AuthenticationFailed => Some 401
  | PermissionDenied => Some 403
  | Http404 => Some 404
  | ValidationError _ => Some 400
  | ValueError _ | FieldError _ | MultipleObjectsReturned | IntegrityError _
  | NotModelled _ => None
  end.

(** An exception the handler raises again is answered by the server
    with 500. *)
Definition error_response (e : exception) : Response :=
  mkResponse (default 500 (exception_handler e)) [].

(** [APIView.dispatch]: [initial] runs before the handler of the action
    is looked at. *)
Definition dispatch (vs : ViewSet) (handler : Self → M Response)
    (action : string) (pk : Z) (h : HttpRequest) (db : Db) : Response * Db :=
  match initial vs db h with
  | Raise e => (error_response e, db)
  | Ok req =>
      match handler (mkSelf req action pk) db with
      | (Ok resp, db') => (resp, db')
      | (Raise e, db') => (error_response e, db')
      end
  end.

(** [instance.delete()]: the row goes, and with a tag or an ingredient
    its associations.  (No view deletes a user; what hangs on a user is
    left alone here.) *)
Definition delete_row (m : ModelName) (pk : Z) (db : Db) : Db :=
  match m with
  | UserM =>
      mkDb (List.filter (λ u, bool_decide (User.id u ≠ pk)) (users db))
        (tokens db) (tag_rows db) (ingredient_rows db) (recipe_rows db)
  | TagM =>
      mkDb (users db) (tokens db)
        (List.filter (λ a, bool_decide (Attr.id a ≠ pk)) (tag_rows db))
        (ingredient_rows db)
        ((λ r, Serializers.set_association TagK
                 (List.filter (λ i, bool_decide (i ≠ pk)) (Recipe.tags r)) r)
           <$> recipe_rows db)
  | IngredientM =>
      mkDb (users db) (tokens db) (tag_rows db)
        (List.filter (λ a, bool_decide (Attr.id a ≠ pk)) (ingredient_rows db))
        ((λ r, Serializers.set_association IngredientK
                 (List.filter (λ i, bool_decide (i ≠ pk)) (Recipe.ingredients r)) r)
           <$> recipe_rows db)
  | RecipeM =>
      set_recipe_rows
        (List.filter (λ r, bool_decide (Recipe.id r ≠ pk)) (recipe_rows db)) db
  end.

Definition pk_of (m : ModelName) : row m → Z :=
  match m with
  | UserM => User.id
  | TagM => Attr.id
  | IngredientM => Attr.id
  | RecipeM => Recipe.id
  end.

Section Generic.
(** The parts of the serializers that the mixins call and that are not
    at hand: validation of a payload and the update of an instance. *)
Variable validate :
  SerializerClass → gmap string value → result (gmap string value).
Variable serializer_update :
  ∀ m, SerializerClass → Request → row m → gmap string value → M (row m).

Variable vs : ViewSet.

(** [GenericAPIView.get_object]: the object with the key of the URL,
    looked up in [get_queryset()]; [Http404] without one. *)
Definition get_object (self : Self) : M (row (model vs)) :=
  queryset ← query (λ db, get_queryset vs db self);
  found ← query (λ _, filter (model vs) "pk" (VInt (kwargs_pk self)) queryset);
  match found with
  | [] => raise Http404
  | [obj] => mret obj
  | _ => raise MultipleObjectsReturned
  end.

Definition render (self : Self) (r : row (model vs)) : list (string * value) :=
  Serializers.to_representation (model vs)
    (Serializers.Meta_fields (get_serializer_class vs self)) r.

(** [ListModelMixin.list] *)
Definition list (self : Self) : M Response :=
  queryset ← query (λ db, get_queryset vs db self);
  mret (mkResponse 200 (render self <$> queryset)).

(** [RetrieveModelMixin.retrieve] *)
Definition retrieve (self : Self) : M Response :=
  instance ← get_object self;
  mret (mkResponse 200 [render self instance]).

(** [UpdateModelMixin.update] and [partial_update] *)
Definition update (self : Self) : M Response :=
  instance ← get_object self;
  validated ← query (λ _,
    validate (get_serializer_class vs self) (data (http (request self))));
  instance' ← serializer_update (model vs) (get_serializer_class vs self)
                (request self) instance validated;
  mret (mkResponse 200 [render self instance']).

(** [DestroyModelMixin.destroy] *)
Definition destroy (self : Self) : M Response :=
  instance ← get_object self;
  _ ← modify (delete_row (model vs) (pk_of (model vs) instance));
  mret (mkResponse 204 []).
End Generic.

End DRF.

(** ** recipe/views.py *)

Module RecipeViewSet.
Import ORM.

Definition serializer_class : SerializerClass := RecipeDetailSerializer.
Definition queryset (db : Db) : list Recipe.t := all RecipeM db.
Definition authentication_classes := [DRF.TokenAuthentication].
Definition permission_classes := [DRF.IsAuthenticated].

(** Convert a list of string IDs to a list of integers. *)
Definition _params_to_ints (qs : string) : result (list Z) :=
  comprehension Py.int (Py.split "," qs).

(** Retrieve recipes for authenticated user. *)
Definition get_queryset (db : Db) (self : Self) : result (list Recipe.t) :=
  let tags := QueryDict.get "tags" (query_params (http (request self))) in
  let ingredients := QueryDict.get "ingredients" (query_params (http (request self))) in
  let queryset := queryset db in
  queryset ←
    (if Py.truthy tags then
       tag_ids ← _params_to_ints (default "" tags);
       filter RecipeM "tags_id_in" (VList tag_ids) queryset
     else Ok queryset);
  queryset ←
    (if Py.truthy ingredients then
       ingredient_ids ← _params_to_ints (default "" ingredients);
       filter RecipeM "ingredients_id_in" (VList ingredient_ids) queryset
     else Ok queryset);
  queryset ← filter RecipeM "user" (VModel (User.id (user (request self)))) queryset;
  queryset ← order_by RecipeM "-id" queryset;
  Ok (distinct RecipeM queryset).

(** Return the serializer class for request. *)
Definition get_serializer_class (self : Self) : SerializerClass :=
  if decide (action self = "list") then RecipeSerializer else serializer_class.

(** Create a new recipe. *)
Definition perform_create (self : Self) (serializer : Serializers.t) : M Recipe.t :=
  Serializers.save serializer {[ "user" := VModel (User.id (user (request self))) ]}.

Definition viewset : DRF.ViewSet :=
  DRF.mkViewSet RecipeM authentication_classes permission_classes
    get_queryset get_serializer_class.
End RecipeViewSet.

(** Base view set for handling recipe attributes; [m] is the model of the
    subclass's [queryset]. *)
Module BaseRecipeAttrViewSet.
Import ORM.

Definition authentication_classes := [DRF.TokenAuthentication].
Definition permission_classes := [DRF.IsAuthenticated].

(** filter queryset to authenticated user *)
Definition get_queryset (m : ModelName) (db : Db) (self : Self)
  : result (list (row m)) :=
  queryset ← filter m "user" (VModel (User.id (user (request self)))) (all m db);
  order_by m "-name" queryset.
End BaseRecipeAttrViewSet.

Module TagViewSet.
Definition serializer_class : SerializerClass := TagSerializer.
Definition get_queryset : Db → Self → result (list Attr.t) :=
  BaseRecipeAttrViewSet.get_queryset TagM.
Definition viewset : DRF.ViewSet :=
  DRF.mkViewSet TagM BaseRecipeAttrViewSet.authentication_classes
    BaseRecipeAttrViewSet.permission_classes get_queryset (λ _, serializer_class).
End TagViewSet.

Module IngredientViewSet.
Definition serializer_class : SerializerClass := IngredientSerializer.
Definition get_queryset : Db → Self → result (list Attr.t) :=
  BaseRecipeAttrViewSet.get_queryset IngredientM.
Definition viewset : DRF.ViewSet :=
  DRF.mkViewSet IngredientM BaseRecipeAttrViewSet.authentication_classes
    BaseRecipeAttrViewSet.permission_classes get_queryset (λ _, serializer_class).
End IngredientViewSet.

(** ** recipe/tests/test_recipe_api.py: the helper of the tests *)

Module Tests.

(** The [defaults] of [create_recipe]; the price [Decimal('5.25')] is 525
    hundredths. *)
Definition defaults : gmap string ORM.value :=
  list_to_map
    [("title", ORM.VStr "Sampple recipe title");
     ("time_minutes", ORM.VInt 22);
     ("price", ORM.VInt 525);
     ("description", ORM.VStr "Sample description");
     ("link", ORM.VStr "http://example.com/recipe.pdf")].

(** The keyword arguments that are followed here: a column of the recipe
    with a value of its kind.  (Any other keyword, a second [user] among
    them, is refused when the call is made; that is outside this model.) *)
Definition column_kwarg (k : string) (v : ORM.value) : bool :=
  match v with
  | ORM.VStr _ => bool_decide (k ∈ ["title"; "description"; "link"])
  | ORM.VInt _ => bool_decide (k ∈ ["time_minutes"; "price"])
  | _ => false
  end.

(** create and return sample recipe *)
Definition create_recipe (user : User.t) (params : gmap string ORM.value)
  : M Recipe.t :=
  if decide (map_Forall (λ k v, column_kwarg k v = true) params) then
    let defaults := params ∪ defaults in
    Serializers.Recipe_objects_create
      (<["user" := ORM.VModel (User.id user)]> defaults)
  else raise (NotModelled "create_recipe").

End Tests.

(** No character of the string is a comma. *)
Definition comma_free (s : string) : Prop :=
  Py.all_chars (λ c, negb (bool_decide ("," = c)%char)) s = true.

(** The primary keys of a table are unique. *)
Definition unique_pk (m : ModelName) (db : Db) : Prop :=
  NoDup (DRF.pk_of m <$> ORM.all m db).

(** ** The list of recipes in the words of the specification *)

Module Spec.

(** Follows the spec's words, not the code: a filter dimension that is
    present keeps the recipes associated with at least one of the listed
    identifiers. *)
Definition passes (ids : option (list Z)) (associated : list Z) : Prop :=
  match ids with
  | None => True
  | Some l => Exists (λ i, i ∈ l) associated
  end.

Global Instance passes_dec ids associated : Decision (passes ids associated).
Proof. destruct ids; simpl; apply _. Defined.

(** Follows the spec's words, not the code: the caller's recipes that pass
    both filter dimensions, most recent first, each one once. *)
Definition recipe_list (db : Db) (caller : Z)
    (tag_ids ingredient_ids : option (list Z)) : list Recipe.t :=
  remove_dups
    (merge_sort (ORM.key_order Z.le Recipe.id true)
       (filter (λ r, Recipe.user r = caller
                     ∧ passes tag_ids (Recipe.tags r)
                     ∧ passes ingredient_ids (Recipe.ingredients r))
          (recipe_rows db))).

End Spec.

(** Who owns a row of a model that has an owner. *)
Definition owned_by (m : ModelName) (caller : Z) : row m → Prop :=
  match m with
  | UserM => λ _, True
  | TagM => λ a, Attr.user a = caller
  | IngredientM => λ a, Attr.user a = caller
  | RecipeM => λ r, Recipe.user r = caller
  end.

Global Instance owned_by_dec m caller r : Decision (owned_by m caller r).
Proof. destruct m; simpl; apply _. Defined.

(** The database as one caller sees it when everybody else's recipes, tags
    and ingredients are taken away. *)
Definition hide_others (caller : Z) (db : Db) : Db :=
  mkDb (users db) (tokens db)
    (filter (owned_by TagM caller) (tag_rows db))
    (filter (owned_by IngredientM caller) (ingredient_rows db))
    (filter (owned_by RecipeM caller) (recipe_rows db)).

(** The three view classes of recipe/views.py. *)
Definition views : list DRF.ViewSet :=
  [RecipeViewSet.viewset; TagViewSet.viewset; IngredientViewSet.viewset].

(** A request carries a valid credential when an authenticator of the view
    recognises its user. *)
Definition valid_credential (vs : DRF.ViewSet) (db : Db) (h : HttpRequest) : Prop :=
  ∃ u, DRF.perform_authentication (DRF.authentication_classes vs) db h = Ok (Some u).

(** Sample data used by the examples below. *)
Module Sample.
Definition alice : User.t := User.mk 1 "alice@example.com".
Definition bob : User.t := User.mk 2 "bob@example.com".

Definition recipe (i owner : Z) (tags ingredients : list Z) : Recipe.t :=
  Recipe.mk i "Sample recipe title" 22 525 "Sample description"
    "http://example.com/recipe.pdf" owner "" tags ingredients.

Definition db : Db :=
  mkDb [alice; bob] [("key-alice", 1); ("key-bob", 2)]
    [Attr.mk 1 "Vegan" 1; Attr.mk 2 "Vegetarian" 1; Attr.mk 3 "Dessert" 2]
    [Attr.mk 1 "Feta Cheese" 1; Attr.mk 2 "Chicken" 1]
    [recipe 1 1 [1; 2] [1]; recipe 2 2 [3] []; recipe 3 1 [] [2]].

(** An authenticated request of [alice] with the given query string. *)
Definition self (q : QueryDict.t) : Self :=
  mkSelf (mkRequest (mkHttp (Some "key-alice") q ∅) alice) "list" 0.
End Sample.

(** The two filter parameters of a request and the caller's key, as
    [get_queryset] reads them. *)
Definition tags_param (self : Self) : option string :=
  QueryDict.get "tags" (query_params (http (request self))).
Definition ingredients_param (self : Self) : option string :=
  QueryDict.get "ingredients" (query_params (http (request self))).
Definition caller (self : Self) : Z := User.id (user (request self)).

(** * Properties *)

(** ** Python builtins on concrete inputs *)

Example split_commas : Py.split "," "1,2" = ["1"; "2"].
Proof. reflexivity. Qed.
Example split_trailing_comma : Py.split "," "1," = ["1"; ""].
Proof. reflexivity. Qed.
Example split_lookup_sep : Py.split "__" "tags__id__in" = ["tags"; "id"; "in"].
Proof. reflexivity. Qed.
Example split_three_underscores : Py.split "__" "a___b" = ["a"; "_b"].
Proof. reflexivity. Qed.
Example split_single_underscores : Py.split "__" "tags_id_in" = ["tags_id_in"].
Proof. reflexivity. Qed.
Example int_spaces : Py.int " 42 " = Ok 42.
Proof. reflexivity. Qed.
Example int_sign_underscore : Py.int "-1_000" = Ok (-1000).
Proof. reflexivity. Qed.
Example int_letters : Py.int "abc" = Raise (ValueError "abc").
Proof. reflexivity. Qed.
Example int_empty : Py.int "" = Raise (ValueError "").
Proof. reflexivity. Qed.
Example int_double_underscore : Py.int "1__0" = Raise (ValueError "1__0").
Proof. reflexivity. Qed.

(** ** Keyword lookups *)

Section orm_facts.

(** Rows replicated zero times or once are the filtered rows. *)
Lemma bind_replicate_filter {A} (P : A → Prop) `{!∀ x, Decision (P x)}
    (rows : list A) :
  (r ← rows; replicate (if decide (P r) then 1%nat else 0%nat) r) = filter P rows.
Proof.
  induction rows as [|r rows IH]; [done|].
  cbn [mbind list_bind]. rewrite IH.
  destruct (decide (P r)).
  - by rewrite filter_cons_True.
  - by rewrite filter_cons_False.
Qed.

(** [filter(user=u)] keeps the rows of that owner, on each of the three
    owned models. *)
Lemma filter_user_Recipe u rows :
  ORM.filter RecipeM "user" (ORM.VModel u) rows
  = Ok (filter (owned_by RecipeM u) rows).
Proof.
  transitivity
    (Ok (r ← rows;
         replicate (if decide (Recipe.user r = u) then 1%nat else 0%nat) r));
    [reflexivity|].
  by rewrite (bind_replicate_filter (λ r, Recipe.user r = u)).
Qed.

Lemma filter_user_Tag u rows :
  ORM.filter TagM "user" (ORM.VModel u) rows = Ok (filter (owned_by TagM u) rows).
Proof.
  transitivity
    (Ok (r ← rows;
         replicate (if decide (Attr.user r = u) then 1%nat else 0%nat) r));
    [reflexivity|].
  by rewrite (bind_replicate_filter (λ r, Attr.user r = u)).
Qed.

Lemma filter_user_Ingredient u rows :
  ORM.filter IngredientM "user" (ORM.VModel u) rows
  = Ok (filter (owned_by IngredientM u) rows).
Proof.
  transitivity
    (Ok (r ← rows;
         replicate (if decide (Attr.user r = u) then 1%nat else 0%nat) r));
    [reflexivity|].
  by rewrite (bind_replicate_filter (λ r, Attr.user r = u)).
Qed.

(** The keywords of the source with single underscores name no field. *)
Lemma filter_tags_id_in rhs rows :
  ORM.filter RecipeM "tags_id_in" rhs rows = Raise (FieldError "tags_id_in").
Proof. reflexivity. Qed.

Lemma filter_ingredients_id_in rhs rows :
  ORM.filter RecipeM "ingredients_id_in" rhs rows
  = Raise (FieldError "ingredients_id_in").
Proof. reflexivity. Qed.

Lemma order_by_minus_id rows :
  ORM.order_by RecipeM "-id" rows
  = Ok (merge_sort (ORM.key_order Z.le Recipe.id true) rows).
Proof. reflexivity. Qed.

Lemma order_by_minus_name_Tag rows :
  ORM.order_by TagM "-name" rows
  = Ok (merge_sort (ORM.key_order String.le Attr.name true) rows).
Proof. reflexivity. Qed.

Lemma order_by_minus_name_Ingredient rows :
  ORM.order_by IngredientM "-name" rows
  = Ok (merge_sort (ORM.key_order String.le Attr.name true) rows).
Proof. reflexivity. Qed.

Global Instance key_order_total {A K} (le : relation K) `{!Total le}
  (key : A → K) desc : Total (ORM.key_order le key desc).
Proof.
  intros a b. unfold ORM.key_order. destruct desc.
  - destruct (total le (key a) (key b)); auto.
  - destruct (total le (key a) (key b)); auto.
Qed.

Global Instance key_order_trans {A K} (le : relation K) `{!Transitive le}
  (key : A → K) desc : Transitive (ORM.key_order le key desc).
Proof.
  intros a b c. unfold ORM.key_order. destruct desc; intros; by etrans.
Qed.

Lemma StronglySorted_remove_dups {A} `{EqDecision A} (R : relation A) (l : list A) :
  StronglySorted R l → StronglySorted R (remove_dups l).
Proof.
  induction 1 as [|x l Hl IH Hx]; simpl; [constructor|].
  destruct (decide_rel elem_of x l); [done|].
  constructor; [done|].
  rewrite Forall_forall in Hx. apply Forall_forall.
  intros y Hy. apply Hx. by apply (proj1 (elem_of_remove_dups l y)).
Qed.
End orm_facts.

(** ** [RecipeViewSet.get_queryset] *)

Section recipe_queryset.
Implicit Types (db : Db) (self : Self).

Lemma int_raises s e : Py.int s = Raise e → e = ValueError s.
Proof.
  unfold Py.int.
  destruct (match Py.strip s with EmptyString => _ | _ => _ end)
    as [negative literal].
  destruct (Py.digits false 0 literal); [|congruence].
  destruct (decide _); congruence.
Qed.

Lemma comprehension_int_raises xs e :
  comprehension Py.int xs = Raise e →
  ∃ tok, tok ∈ xs ∧ e = ValueError tok ∧ Py.int tok = Raise (ValueError tok).
Proof.
  induction xs as [|x xs IH]; [done|].
  cbn [comprehension mbind result_bind].
  destruct (Py.int x) as [z|e'] eqn:Hx.
  - destruct (comprehension Py.int xs) as [zs|e''] eqn:Hxs; [done|].
    intros [= ->]. destruct (IH eq_refl) as (tok & ? & ? & ?).
    exists tok. split_and!; [by right|done..].
  - intros [= ->]. exists x. pose proof (int_raises _ _ Hx) as ->.
    split_and!; [by left|done..].
Qed.

(** Without a filter parameter (absent or empty) the queryset is the
    caller's recipes, newest first, each one once. *)
Lemma get_queryset_unfiltered db self :
  Py.truthy (tags_param self) = false →
  Py.truthy (ingredients_param self) = false →
  RecipeViewSet.get_queryset db self
  = Ok (remove_dups
          (merge_sort (ORM.key_order Z.le Recipe.id true)
             (filter (owned_by RecipeM (caller self)) (recipe_rows db)))).
Proof.
  intros Ht Hi. unfold RecipeViewSet.get_queryset.
  fold (tags_param self) (ingredients_param self). rewrite Ht, Hi.
  cbn [mbind result_bind]. rewrite filter_user_Recipe.
  cbn [mbind result_bind]. by rewrite order_by_minus_id.
Qed.

(** With a [tags] parameter that is not empty the queryset is never
    built: either an identifier does not parse, or the keyword of the
    filter does not resolve. *)
Lemma get_queryset_tags_raises db self :
  Py.truthy (tags_param self) = true →
  (∃ tok, tok ∈ Py.split "," (default "" (tags_param self))
          ∧ RecipeViewSet.get_queryset db self = Raise (ValueError tok))
  ∨ RecipeViewSet.get_queryset db self = Raise (FieldError "tags_id_in").
Proof.
  intros Ht. unfold RecipeViewSet.get_queryset.
  fold (tags_param self) (ingredients_param self). rewrite Ht.
  destruct (RecipeViewSet._params_to_ints (default "" (tags_param self)))
    as [ids|e] eqn:Hp; cbn [mbind result_bind].
  - right. by rewrite filter_tags_id_in.
  - left. apply comprehension_int_raises in Hp as (tok & ? & -> & _). eauto.
Qed.

(** The same for [ingredients] when [tags] is absent or empty. *)
Lemma get_queryset_ingredients_raises db self :
  Py.truthy (tags_param self) = false →
  Py.truthy (ingredients_param self) = true →
  (∃ tok, tok ∈ Py.split "," (default "" (ingredients_param self))
          ∧ RecipeViewSet.get_queryset db self = Raise (ValueError tok))
  ∨ RecipeViewSet.get_queryset db self = Raise (FieldError "ingredients_id_in").
Proof.
  intros Ht Hi. unfold RecipeViewSet.get_queryset.
  fold (tags_param self) (ingredients_param self). rewrite Ht, Hi.
  cbn [mbind result_bind].
  destruct (RecipeViewSet._params_to_ints (default "" (ingredients_param self)))
    as [ids|e] eqn:Hp; cbn [mbind result_bind].
  - right. by rewrite filter_ingredients_id_in.
  - left. apply comprehension_int_raises in Hp as (tok & ? & -> & _). eauto.
Qed.

(** A request with a filter never gets a queryset. *)
Lemma get_queryset_filter_not_Ok db self :
  Py.truthy (tags_param self) || Py.truthy (ingredients_param self) = true →
  is_Ok (RecipeViewSet.get_queryset db self) = false.
Proof.
  destruct (Py.truthy (tags_param self)) eqn:Ht.
  - intros _. by destruct (get_queryset_tags_raises db self Ht) as [(?&?&->)| ->].
  - simpl. intros Hi.
    by destruct (get_queryset_ingredients_raises db self Ht Hi) as [(?&?&->)| ->].
Qed.

(** Whatever [get_queryset] returns is the unfiltered list. *)
Lemma get_queryset_Ok db self rows :
  RecipeViewSet.get_queryset db self = Ok rows →
  Py.truthy (tags_param self) = false
  ∧ Py.truthy (ingredients_param self) = false
  ∧ rows = remove_dups
             (merge_sort (ORM.key_order Z.le Recipe.id true)
                (filter (owned_by RecipeM (caller self)) (recipe_rows db))).
Proof.
  intros Hq.
  destruct (Py.truthy (tags_param self) || Py.truthy (ingredients_param self))
    eqn:Hf.
  - apply (get_queryset_filter_not_Ok db) in Hf. by rewrite Hq in Hf.
  - apply orb_false_iff in Hf as [Ht Hi].
    rewrite (get_queryset_unfiltered db self Ht Hi) in Hq. naive_solver.
Qed.
End recipe_queryset.

(** ** [BaseRecipeAttrViewSet.get_queryset] *)

Section attr_queryset.
Implicit Types (db : Db) (self : Self).

Lemma tag_get_queryset db self :
  TagViewSet.get_queryset db self
  = Ok (merge_sort (ORM.key_order String.le Attr.name true)
          (filter (owned_by TagM (caller self)) (tag_rows db))).
Proof.
  unfold TagViewSet.get_queryset, BaseRecipeAttrViewSet.get_queryset.
  rewrite filter_user_Tag. cbn [mbind result_bind].
  by rewrite order_by_minus_name_Tag.
Qed.

Lemma ingredient_get_queryset db self :
  IngredientViewSet.get_queryset db self
  = Ok (merge_sort (ORM.key_order String.le Attr.name true)
          (filter (owned_by IngredientM (caller self)) (ingredient_rows db))).
Proof.
  unfold IngredientViewSet.get_queryset, BaseRecipeAttrViewSet.get_queryset.
  rewrite filter_user_Ingredient. cbn [mbind result_bind].
  by rewrite order_by_minus_name_Ingredient.
Qed.

Lemma merge_sort_by_name_descending (rows : list Attr.t) :
  StronglySorted (λ a b, String.le (Attr.name b) (Attr.name a))
    (merge_sort (ORM.key_order String.le Attr.name true) rows).
Proof.
  apply (StronglySorted_merge_sort (ORM.key_order String.le Attr.name true)).
Qed.
End attr_queryset.

(** ** C3: order of the tag and ingredient lists *)

(** C3, as stated, fails: the list of tags is not in ascending order of
    name.  The request of [alice] on the sample data answers
    [Vegetarian] before [Vegan]. *)
Lemma attr_list_not_ascending :
  ¬ (∀ db self rows,
       TagViewSet.get_queryset db self = Ok rows →
       Sorted (λ a b, String.le (Attr.name a) (Attr.name b)) rows).
Proof.
  intros H.
  specialize (H Sample.db (Sample.self [])
                [Attr.mk 2 "Vegetarian" 1; Attr.mk 1 "Vegan" 1] eq_refl).
  inversion H as [|? ? _ Hhd]; subst.
  inversion Hhd as [|? ? Hle]; subst.
  vm_compute in Hle. exact Hle.
Qed.

(** C3, amended: every list request on tags or on ingredients returns the
    caller's entities in descending order of their name, as
    [order_by('-name')] asks. *)
Theorem attr_list_descending_by_name (db : Db) (self : Self) :
  (∃ rows,
     TagViewSet.get_queryset db self = Ok rows
     ∧ StronglySorted (λ a b, String.le (Attr.name b) (Attr.name a)) rows
     ∧ rows ≡ₚ filter (owned_by TagM (caller self)) (tag_rows db))
  ∧ (∃ rows,
       IngredientViewSet.get_queryset db self = Ok rows
       ∧ StronglySorted (λ a b, String.le (Attr.name b) (Attr.name a)) rows
       ∧ rows ≡ₚ filter (owned_by IngredientM (caller self)) (ingredient_rows db)).
Proof.
  split; eexists; (split; [apply tag_get_queryset || apply ingredient_get_queryset|]);
    (split; [apply merge_sort_by_name_descending|apply merge_sort_Permutation]).
Qed.

(** ** C1: filtering the recipe list by tags and ingredients *)

(** C1, the code at a failing input: [GET /recipes/?tags=1] of [alice] on
    the sample data.  The specification asks for the one recipe of hers
    that carries tag 1; [get_queryset] raises [FieldError], because
    [tags_id_in] names no field, and the list action answers 500.  The
    same happens with [ingredients=2] and with both parameters. *)
Theorem recipe_filter_field_error :
  RecipeViewSet.get_queryset Sample.db (Sample.self [("tags", "1")])
  = Raise (FieldError "tags_id_in")
  ∧ Spec.recipe_list Sample.db 1 (Some [1]) None
    = [Sample.recipe 1 1 [1; 2] [1]]
  ∧ RecipeViewSet.get_queryset Sample.db (Sample.self [("ingredients", "2")])
    = Raise (FieldError "ingredients_id_in")
  ∧ Spec.recipe_list Sample.db 1 None (Some [2])
    = [Sample.recipe 3 1 [] [2]]
  ∧ RecipeViewSet.get_queryset Sample.db
      (Sample.self [("tags", "1,2"); ("ingredients", "1")])
    = Raise (FieldError "tags_id_in")
  ∧ Spec.recipe_list Sample.db 1 (Some [1; 2]) (Some [1])
    = [Sample.recipe 1 1 [1; 2] [1]]
  ∧ DRF.status_code
      (DRF.dispatch RecipeViewSet.viewset (DRF.list RecipeViewSet.viewset)
         "list" 0 (mkHttp (Some "key-alice") [("tags", "1")] ∅) Sample.db).1
    = 500.
Proof. repeat split; vm_compute; reflexivity. Qed.

(** The defect is in the keyword alone: no request with a filter parameter
    that is not empty ever gets its list, whatever the database holds. *)
Lemma recipe_filter_always_raises (db : Db) (self : Self) :
  Py.truthy (tags_param self) || Py.truthy (ingredients_param self) = true →
  ∃ e, RecipeViewSet.get_queryset db self = Raise e
       ∧ DRF.exception_handler e = None.
Proof.
  intros Hf. destruct (Py.truthy (tags_param self)) eqn:Ht.
  - destruct (get_queryset_tags_raises db self Ht) as [(tok&_&->)| ->]; eauto.
  - destruct (get_queryset_ingredients_raises db self Ht Hf) as [(tok&_&->)| ->];
      eauto.
Qed.

(** With the lookup spelled [tags__id__in] the same [filter] keeps exactly
    the rows that carry one of the listed tags, as the specification
    asks. *)
Lemma filter_tags__id__in (ids : list Z) (rows : list Recipe.t) :
  ∃ kept,
    ORM.filter RecipeM "tags__id__in" (ORM.VList ids) rows = Ok kept
    ∧ ∀ r, r ∈ kept ↔ r ∈ rows ∧ Spec.passes (Some ids) (Recipe.tags r).
Proof.
  eexists. split; [reflexivity|].
  intros r. rewrite list_elem_of_bind. split.
  - intros (r' & Hr & Hin). apply elem_of_replicate in Hr as [-> Hn].
    split; [done|]. simpl. apply Exists_exists.
    destruct (filter (λ i, i ∈ ids) (Recipe.tags r')) as [|i l] eqn:Hfl; [done|].
    assert (i ∈ filter (λ i, i ∈ ids) (Recipe.tags r')) as Hi
      by (rewrite Hfl; by left).
    apply list_elem_of_filter in Hi as [? ?]. by exists i.
  - intros [Hin Hp]. exists r. split; [|done].
    apply elem_of_replicate. split; [done|].
    simpl in Hp. apply Exists_exists in Hp as (i & Hi & Hl).
    assert (i ∈ filter (λ i, i ∈ ids) (Recipe.tags r)) as Hf
      by by apply list_elem_of_filter.
    destruct (filter (λ i, i ∈ ids) (Recipe.tags r)); [by inversion Hf|done].
Qed.

(** ** C4: order and uniqueness of the recipe list *)

(** What [get_queryset] returns is in descending order of identifier and
    holds no recipe twice. *)
Lemma recipe_list_sorted_nodup (db : Db) (self : Self) (rows : list Recipe.t) :
  RecipeViewSet.get_queryset db self = Ok rows →
  StronglySorted (λ a b, Recipe.id b ≤ Recipe.id a) rows ∧ NoDup rows.
Proof.
  intros (_ & _ & ->)%get_queryset_Ok. split.
  - apply StronglySorted_remove_dups.
    apply (StronglySorted_merge_sort (ORM.key_order Z.le Recipe.id true)).
  - apply NoDup_remove_dups.
Qed.

(** C4, the code at a failing input: [GET /recipes/?tags=1,2] of [alice]
    on the sample data, where recipe 1 carries both tags.  The
    specification lists that recipe once.  With the lookup spelled
    [tags__id__in] the join gives it twice and [distinct] keeps it once;
    with the keyword of the source, [get_queryset] raises [FieldError]
    before [order_by] and [distinct] are reached, and the answer is 500
    with no recipe at all. *)
Theorem recipe_list_multi_match_field_error :
  RecipeViewSet.get_queryset Sample.db (Sample.self [("tags", "1,2")])
  = Raise (FieldError "tags_id_in")
  ∧ Spec.recipe_list Sample.db 1 (Some [1; 2]) None
    = [Sample.recipe 1 1 [1; 2] [1]]
  ∧ ORM.filter RecipeM "tags__id__in" (ORM.VList [1; 2]) (recipe_rows Sample.db)
    = Ok [Sample.recipe 1 1 [1; 2] [1]; Sample.recipe 1 1 [1; 2] [1]]
  ∧ ORM.distinct RecipeM
      [Sample.recipe 1 1 [1; 2] [1]; Sample.recipe 1 1 [1; 2] [1]]
    = [Sample.recipe 1 1 [1; 2] [1]]
  ∧ DRF.dispatch RecipeViewSet.viewset (DRF.list RecipeViewSet.viewset)
      "list" 0 (mkHttp (Some "key-alice") [("tags", "1,2")] ∅) Sample.db
    = (DRF.mkResponse 500 [], Sample.db).
Proof. repeat split; vm_compute; reflexivity. Qed.

(** ** C9: identifiers that are not decimal integers *)

(** C9: a [tags] or [ingredients] parameter with a token that is no decimal
    integer ([abc], or the empty token after the comma of [1,]) makes
    [get_queryset] raise [ValueError] out of [int]; the exception handler
    of the framework does not answer it, so the list action ends in a 500
    and not in a 400, with the database untouched. *)
Theorem recipe_filter_bad_token_server_fault (db : Db) (u : User.t)
    (key : option string) (body : gmap string ORM.value) (action : string) (pk : Z) :
  let self q := mkSelf (mkRequest (mkHttp key q body) u) action pk in
  RecipeViewSet.get_queryset db (self [("tags", "abc")]) = Raise (ValueError "abc")
  ∧ RecipeViewSet.get_queryset db (self [("tags", "1,")]) = Raise (ValueError "")
  ∧ RecipeViewSet.get_queryset db (self [("ingredients", "abc")])
    = Raise (ValueError "abc")
  ∧ RecipeViewSet.get_queryset db (self [("ingredients", "1,")])
    = Raise (ValueError "")
  ∧ DRF.list RecipeViewSet.viewset (self [("tags", "abc")]) db
    = (Raise (ValueError "abc"), db)
  ∧ (∀ tok, DRF.exception_handler (ValueError tok) = None
            ∧ DRF.status_code (DRF.error_response (ValueError tok)) = 500).
Proof. repeat split; reflexivity. Qed.

(** The 500 end to end, for [alice] on the sample data. *)
Example bad_token_response :
  DRF.dispatch RecipeViewSet.viewset (DRF.list RecipeViewSet.viewset)
    "list" 0 (mkHttp (Some "key-alice") [("tags", "1,")] ∅) Sample.db
  = (DRF.mkResponse 500 [], Sample.db).
Proof. vm_compute. reflexivity. Qed.

(** ** C10: a filter parameter that is present but empty *)

(** C10: a request whose [tags] parameter is the empty string gets the very
    queryset of the request without that parameter, and likewise for
    [ingredients]; with neither filter in force the queryset is built
    without an exception. *)
Theorem empty_filter_parameter_is_absent (db : Db) (self self' : Self) :
  user (request self) = user (request self') →
  (tags_param self = Some "" ∧ tags_param self' = None
   ∧ ingredients_param self = ingredients_param self')
  ∨ (ingredients_param self = Some "" ∧ ingredients_param self' = None
     ∧ tags_param self = tags_param self') →
  RecipeViewSet.get_queryset db self = RecipeViewSet.get_queryset db self'
  ∧ (Py.truthy (tags_param self') = false →
     Py.truthy (ingredients_param self') = false →
     RecipeViewSet.get_queryset db self
     = Ok (remove_dups
             (merge_sort (ORM.key_order Z.le Recipe.id true)
                (filter (owned_by RecipeM (caller self)) (recipe_rows db))))).
Proof.
  intros Hu Hp.
  assert (RecipeViewSet.get_queryset db self = RecipeViewSet.get_queryset db self')
    as Heq.
  { unfold RecipeViewSet.get_queryset.
    fold (tags_param self) (ingredients_param self)
         (tags_param self') (ingredients_param self').
    rewrite Hu. by destruct Hp as [(-> & -> & ->)|(-> & -> & ->)]. }
  split; [done|]. intros Ht Hi.
  rewrite Heq, (get_queryset_unfiltered db self' Ht Hi).
  unfold caller. by rewrite Hu.
Qed.

Lemma empty_filter_parameter_is_absent_witness :
  RecipeViewSet.get_queryset Sample.db (Sample.self [("tags", "")])
  = RecipeViewSet.get_queryset Sample.db (Sample.self [])
  ∧ RecipeViewSet.get_queryset Sample.db (Sample.self [("tags", "")])
    = Ok [Sample.recipe 3 1 [] [2]; Sample.recipe 1 1 [1; 2] [1]].
Proof.
  destruct (empty_filter_parameter_is_absent Sample.db
              (Sample.self [("tags", "")]) (Sample.self []) eq_refl
              (or_introl (conj eq_refl (conj eq_refl eq_refl)))) as [H1 H2].
  split; [exact H1|]. rewrite (H2 eq_refl eq_refl). vm_compute. reflexivity.
Defined.

(** Unfolds the sequencing of handlers down to the database passing. *)
Ltac run_M :=
  unfold query, modify, raise; unfold mbind, M_bind, mret, M_ret; cbv beta.

(** ** C6: the projection of the list and of the other actions *)

(** C6: what the responses hold.  The list action answers with one item
    for each recipe of the queryset, made of its id, title, time, price
    and link and of nothing else: no description, no tags, no ingredients.
    Under every other action, retrieve answers with the one recipe that
    [get_object] finds, and update with the recipe as the serializer left
    it, both in the detail projection: the same five fields and then the
    description, the tags and the ingredients.  Update also validates and
    writes with the detail serializer.  A failure of the queryset, of the
    lookup, of the validation or of the update is passed on as it is. *)
Theorem list_uses_summary_others_detail
    (validate : SerializerClass → gmap string ORM.value
                → result (gmap string ORM.value))
    (serializer_update : ∀ m, SerializerClass → Request → row m
                         → gmap string ORM.value → M (row m))
    (db : Db) (self : Self) :
  let summary (r : Recipe.t) :=
    [("id", ORM.VInt (Recipe.id r)); ("title", ORM.VStr (Recipe.title r));
     ("time_minutes", ORM.VInt (Recipe.time_minutes r));
     ("price", ORM.VInt (Recipe.price r));
     ("link", ORM.VStr (Recipe.link r))] in
  let detail (r : Recipe.t) :=
    summary r
    ++ [("description", ORM.VStr (Recipe.description r));
        ("tags", ORM.VList (Recipe.tags r));
        ("ingredients", ORM.VList (Recipe.ingredients r))] in
  (action self = "list" →
   DRF.list RecipeViewSet.viewset self db
   = match RecipeViewSet.get_queryset db self with
     | Ok rows => (Ok (DRF.mkResponse 200 (summary <$> rows)), db)
     | Raise e => (Raise e, db)
     end)
  ∧ (action self ≠ "list" →
     DRF.retrieve RecipeViewSet.viewset self db
     = match DRF.get_object RecipeViewSet.viewset self db with
       | (Ok r, db') => (Ok (DRF.mkResponse 200 [detail r]), db')
       | (Raise e, db') => (Raise e, db')
       end
     ∧ DRF.update validate serializer_update RecipeViewSet.viewset self db
       = match DRF.get_object RecipeViewSet.viewset self db with
         | (Raise e, db') => (Raise e, db')
         | (Ok r, db') =>
             match validate RecipeDetailSerializer
                     (data (http (request self))) with
             | Raise e => (Raise e, db')
             | Ok validated =>
                 match serializer_update RecipeM RecipeDetailSerializer
                         (request self) r validated db' with
                 | (Ok r', db'') => (Ok (DRF.mkResponse 200 [detail r']), db'')
                 | (Raise e, db'') => (Raise e, db'')
                 end
             end
         end).
Proof.
  intros summary detail. split; intros Ha.
  - assert (RecipeViewSet.get_serializer_class self = RecipeSerializer) as Hc.
    { unfold RecipeViewSet.get_serializer_class. by rewrite decide_True. }
    unfold DRF.list, DRF.render.
    cbn [DRF.get_queryset DRF.get_serializer_class
         RecipeViewSet.viewset DRF.model].
    run_M. rewrite Hc.
    by destruct (RecipeViewSet.get_queryset db self).
  - assert (RecipeViewSet.get_serializer_class self = RecipeDetailSerializer) as Hc.
    { unfold RecipeViewSet.get_serializer_class. by rewrite decide_False. }
    assert (∀ r, DRF.render RecipeViewSet.viewset self r = detail r) as Hr.
    { intros r. unfold DRF.render.
      cbn [DRF.get_serializer_class RecipeViewSet.viewset DRF.model].
      by rewrite Hc. }
    split.
    + unfold DRF.retrieve. run_M.
      destruct (DRF.get_object RecipeViewSet.viewset self db) as [[r|e] db'];
        [|done].
      by rewrite Hr.
    + unfold DRF.update. run_M.
      cbn [DRF.get_serializer_class RecipeViewSet.viewset DRF.model].
      rewrite Hc.
      destruct (DRF.get_object RecipeViewSet.viewset self db) as [[r|e] db'];
        [|done].
      destruct (validate RecipeDetailSerializer _) as [validated|e]; [|done].
      destruct (serializer_update RecipeM RecipeDetailSerializer _ r validated db')
        as [[r'|e] db'']; [|done].
      by rewrite Hr.
Qed.

Lemma list_uses_summary_others_detail_witness :
  DRF.list RecipeViewSet.viewset
    (mkSelf (mkRequest (mkHttp (Some "key-bob") [] ∅) Sample.bob) "list" 0)
    Sample.db
  = (Ok (DRF.mkResponse 200
           [[("id", ORM.VInt 2); ("title", ORM.VStr "Sample recipe title");
             ("time_minutes", ORM.VInt 22); ("price", ORM.VInt 525);
             ("link", ORM.VStr "http://example.com/recipe.pdf")]]),
     Sample.db)
  ∧ DRF.retrieve RecipeViewSet.viewset
      (mkSelf (mkRequest (mkHttp (Some "key-bob") [] ∅) Sample.bob)
         "retrieve" 2)
      Sample.db
    = (Ok (DRF.mkResponse 200
             [[("id", ORM.VInt 2); ("title", ORM.VStr "Sample recipe title");
               ("time_minutes", ORM.VInt 22); ("price", ORM.VInt 525);
               ("link", ORM.VStr "http://example.com/recipe.pdf");
               ("description", ORM.VStr "Sample description");
               ("tags", ORM.VList [3]); ("ingredients", ORM.VList [])]]),
       Sample.db).
Proof.
  split.
  - rewrite (proj1 (list_uses_summary_others_detail
                      (λ _ d, Ok d) (λ _ _ _ r _, mret r) Sample.db
                      (mkSelf (mkRequest (mkHttp (Some "key-bob") [] ∅)
                                 Sample.bob) "list" 0)) eq_refl).
    vm_compute. reflexivity.
  - destruct (proj2 (list_uses_summary_others_detail
                       (λ _ d, Ok d) (λ _ _ _ r _, mret r) Sample.db
                       (mkSelf (mkRequest (mkHttp (Some "key-bob") [] ∅)
                                  Sample.bob) "retrieve" 2)))
      as [Hr _]; [discriminate|].
    rewrite Hr. vm_compute. reflexivity.
Defined.

(** The two projections on the sample data. *)
Example list_and_retrieve_bodies :
  (DRF.dispatch RecipeViewSet.viewset (DRF.list RecipeViewSet.viewset)
     "list" 0 (mkHttp (Some "key-bob") [] ∅) Sample.db).1
  = DRF.mkResponse 200
      [[("id", ORM.VInt 2); ("title", ORM.VStr "Sample recipe title");
        ("time_minutes", ORM.VInt 22); ("price", ORM.VInt 525);
        ("link", ORM.VStr "http://example.com/recipe.pdf")]]
  ∧ (DRF.dispatch RecipeViewSet.viewset (DRF.retrieve RecipeViewSet.viewset)
       "retrieve" 2 (mkHttp (Some "key-bob") [] ∅) Sample.db).1
    = DRF.mkResponse 200
        [[("id", ORM.VInt 2); ("title", ORM.VStr "Sample recipe title");
          ("time_minutes", ORM.VInt 22); ("price", ORM.VInt 525);
          ("link", ORM.VStr "http://example.com/recipe.pdf");
          ("description", ORM.VStr "Sample description");
          ("tags", ORM.VList [3]); ("ingredients", ORM.VList [])]].
Proof. split; vm_compute; reflexivity. Qed.

(** ** C7: requests without a valid credential *)

(** C7: on each of the three view classes, a request whose credential is
    missing or not valid is answered 401, whatever the action and its
    handler are; the handler is not run and the database is left as it
    was. *)
Theorem unauthenticated_is_401 (vs : DRF.ViewSet) (handler : Self → M DRF.Response)
    (action : string) (pk : Z) (h : HttpRequest) (db : Db) :
  vs ∈ views →
  ¬ valid_credential vs db h →
  DRF.dispatch vs handler action pk h db = (DRF.mkResponse 401 [], db).
Proof.
  intros Hvs Hv.
  assert (DRF.authentication_classes vs = [DRF.TokenAuthentication]
          ∧ DRF.permission_classes vs = [DRF.IsAuthenticated]) as [Ha Hp].
  { unfold views in Hvs.
    repeat (apply elem_of_cons in Hvs as [->|Hvs]); [done..|].
    by apply elem_of_nil in Hvs. }
  unfold valid_credential in Hv. unfold DRF.dispatch, DRF.initial, DRF.check_permissions.
  rewrite Ha, Hp in *. cbn [DRF.perform_authentication mbind result_bind] in *.
  destruct (DRF.authenticate DRF.TokenAuthentication db h) as [[u|]|e] eqn:Hau.
  - exfalso. apply Hv. by exists u.
  - reflexivity.
  - cbn. revert Hau. unfold DRF.authenticate.
    destruct (authorization h); [|done].
    destruct (ORM.assoc _ _); [|by intros [= <-]].
    destruct (List.find _ _); [done|by intros [= <-]].
Qed.

Lemma unauthenticated_is_401_witness :
  DRF.dispatch RecipeViewSet.viewset (DRF.list RecipeViewSet.viewset)
    "list" 0 (mkHttp None [] ∅) Sample.db
  = (DRF.mkResponse 401 [], Sample.db)
  ∧ DRF.dispatch TagViewSet.viewset (DRF.destroy TagViewSet.viewset)
      "destroy" 1 (mkHttp (Some "no-such-key") [] ∅) Sample.db
    = (DRF.mkResponse 401 [], Sample.db).
Proof.
  split.
  - apply unauthenticated_is_401.
    + unfold views. set_solver.
    + intros [u Hu]. vm_compute in Hu. discriminate.
  - apply unauthenticated_is_401.
    + unfold views. set_solver.
    + intros [u Hu]. vm_compute in Hu. discriminate.
Defined.

(** ** C2: the ownership filter *)

Section ownership.
Implicit Types (db : Db) (self : Self).

Lemma owned_by_hide_others m c db :
  m ≠ UserM →
  filter (owned_by m c) (ORM.all m (hide_others c db))
  = filter (owned_by m c) (ORM.all m db).
Proof.
  intros Hm. destruct m; [done|..]; cbn [ORM.all hide_others tag_rows
    ingredient_rows recipe_rows]; rewrite list_filter_filter;
    apply list_filter_iff; intros x; tauto.
Qed.

(** The recipe queryset of a request with a filter does not depend on the
    database at all. *)
Lemma recipe_get_queryset_filtered_indep db db' self :
  Py.truthy (tags_param self) || Py.truthy (ingredients_param self) = true →
  RecipeViewSet.get_queryset db self = RecipeViewSet.get_queryset db' self.
Proof.
  intros Hf. unfold RecipeViewSet.get_queryset.
  fold (tags_param self) (ingredients_param self).
  destruct (Py.truthy (tags_param self)).
  - destruct (RecipeViewSet._params_to_ints (default "" (tags_param self)));
      cbn [mbind result_bind]; [|done].
    by rewrite !filter_tags_id_in.
  - simpl in Hf. rewrite Hf. cbn [mbind result_bind].
    destruct (RecipeViewSet._params_to_ints (default "" (ingredients_param self)));
      cbn [mbind result_bind]; [|done].
    by rewrite !filter_ingredients_id_in.
Qed.

(** [get_queryset] reads the database as if the rows of the other owners
    were not there. *)
Lemma get_queryset_hide_others vs db self :
  vs ∈ views →
  DRF.get_queryset vs db self
  = DRF.get_queryset vs (hide_others (caller self) db) self.
Proof.
  intros Hvs. unfold views in Hvs.
  repeat (apply elem_of_cons in Hvs as [->|Hvs]);
    [..|by apply elem_of_nil in Hvs];
    cbn [DRF.get_queryset RecipeViewSet.viewset TagViewSet.viewset
         IngredientViewSet.viewset].
  - destruct (Py.truthy (tags_param self) || Py.truthy (ingredients_param self))
      eqn:Hf.
    + by apply recipe_get_queryset_filtered_indep.
    + apply orb_false_iff in Hf as [Ht Hi].
      rewrite !(get_queryset_unfiltered _ self Ht Hi).
      by rewrite (owned_by_hide_others RecipeM).
  - rewrite !tag_get_queryset. by rewrite (owned_by_hide_others TagM).
  - rewrite !ingredient_get_queryset.
    by rewrite (owned_by_hide_others IngredientM).
Qed.

(** The rows of a queryset are rows of the table that the caller owns. *)
Lemma get_queryset_rows vs db self rows r :
  vs ∈ views →
  DRF.get_queryset vs db self = Ok rows →
  r ∈ rows ↔ r ∈ ORM.all (DRF.model vs) db ∧ owned_by (DRF.model vs) (caller self) r.
Proof.
  intros Hvs. unfold views in Hvs.
  repeat (apply elem_of_cons in Hvs as [->|Hvs]);
    [..|by apply elem_of_nil in Hvs];
    cbn [DRF.get_queryset DRF.model RecipeViewSet.viewset TagViewSet.viewset
         IngredientViewSet.viewset ORM.all].
  - intros (_ & _ & ->)%get_queryset_Ok.
    rewrite elem_of_remove_dups, merge_sort_Permutation, list_elem_of_filter.
    tauto.
  - rewrite tag_get_queryset. intros [= <-].
    rewrite merge_sort_Permutation, list_elem_of_filter. tauto.
  - rewrite ingredient_get_queryset. intros [= <-].
    rewrite merge_sort_Permutation, list_elem_of_filter. tauto.
Qed.

(** [filter(pk=k)] keeps the rows with that primary key. *)
Lemma filter_pk m k (rows : list (row m)) :
  ORM.filter m "pk" (ORM.VInt k) rows
  = Ok (filter (λ r, DRF.pk_of m r = k) rows).
Proof.
  destruct m;
    (transitivity
       (Ok (r ← rows;
            replicate (if decide (DRF.pk_of _ r = k) then 1%nat else 0%nat) r));
     [reflexivity|]);
    by rewrite (bind_replicate_filter (λ r, DRF.pk_of _ r = k)).
Qed.
End ownership.

Section get_object.
Implicit Types (db : Db) (self : Self) (vs : DRF.ViewSet).

(** An exception of the first step is the exception of the sequence. *)
Lemma M_bind_Raise {A B} (c : M A) (k : A → M B) db e db' :
  c db = (Raise e, db') → (c ≫= k) db = (Raise e, db').
Proof. intros Hc. unfold mbind, M_bind. by rewrite Hc. Qed.

Lemma M_bind_Ok {A B} (c : M A) (k : A → M B) db a db' :
  c db = (Ok a, db') → (c ≫= k) db = k a db'.
Proof. intros Hc. unfold mbind, M_bind. by rewrite Hc. Qed.

Lemma get_object_unfold vs self db :
  DRF.get_object vs self db
  = match DRF.get_queryset vs db self with
    | Raise e => (Raise e, db)
    | Ok qs =>
        match filter (λ r, DRF.pk_of (DRF.model vs) r = kwargs_pk self) qs with
        | [] => (Raise Http404, db)
        | [obj] => (Ok obj, db)
        | _ => (Raise MultipleObjectsReturned, db)
        end
    end.
Proof.
  unfold DRF.get_object. run_M.
  destruct (DRF.get_queryset vs db self) as [qs|e]; [|done].
  rewrite filter_pk.
  by destruct (filter _ qs) as [|obj [|obj' l]].
Qed.

(** An object that [get_object] finds is a row of the table with the key
    of the URL, owned by the caller; the database is only read. *)
Lemma get_object_Ok vs self db obj db' :
  vs ∈ views →
  DRF.get_object vs self db = (Ok obj, db') →
  db' = db
  ∧ obj ∈ ORM.all (DRF.model vs) db
  ∧ DRF.pk_of (DRF.model vs) obj = kwargs_pk self
  ∧ owned_by (DRF.model vs) (caller self) obj.
Proof.
  intros Hvs. rewrite get_object_unfold.
  destruct (DRF.get_queryset vs db self) as [qs|e] eqn:Hq; [|done].
  destruct (filter _ qs) as [|o [|o' l]] eqn:Hf; [done| |done].
  intros [= <- <-].
  assert (o ∈ filter (λ r, DRF.pk_of (DRF.model vs) r = kwargs_pk self) qs)
    as [Hpk Hin]%list_elem_of_filter by (rewrite Hf; by left).
  apply (get_queryset_rows vs db self qs o Hvs Hq) in Hin as [? ?].
  done.
Qed.

(** Without a row of that key owned by the caller, [get_object] raises and
    the database is as before; when the queryset itself is built, the
    exception is [Http404]. *)
Lemma get_object_not_owned vs self db :
  vs ∈ views →
  (∀ r, r ∈ ORM.all (DRF.model vs) db →
        DRF.pk_of (DRF.model vs) r = kwargs_pk self →
        ¬ owned_by (DRF.model vs) (caller self) r) →
  ∃ e, DRF.get_object vs self db = (Raise e, db)
       ∧ (is_Ok (DRF.get_queryset vs db self) = true → e = Http404).
Proof.
  intros Hvs Hno. rewrite get_object_unfold.
  destruct (DRF.get_queryset vs db self) as [qs|e] eqn:Hq.
  - destruct (filter _ qs) as [|o l] eqn:Hf; [by eexists|].
    assert (o ∈ filter (λ r, DRF.pk_of (DRF.model vs) r = kwargs_pk self) qs)
      as [Hpk Hin]%list_elem_of_filter by (rewrite Hf; by left).
    apply (get_queryset_rows vs db self qs o Hvs Hq) in Hin as [Hin Ho].
    by destruct (Hno o Hin Hpk).
  - by eexists.
Qed.

Lemma all_delete_row m k db :
  ORM.all m (DRF.delete_row m k db)
  = List.filter (λ r, bool_decide (DRF.pk_of m r ≠ k)) (ORM.all m db).
Proof. by destruct m. Qed.
End get_object.

(** C2: on each of the three view classes, the rows a list request returns
    are rows of the caller; the queryset, and with it the object that
    retrieve, update and delete work on, is the same as on the database
    without the rows of the other owners; an object that is found is owned
    by the caller; when the key of the URL belongs to no row of the caller
    (it is missing, or it is someone else's), retrieve, update and delete
    raise the same exception, [Http404] whenever the queryset is built, and
    leave the database as it was; and a delete never removes a row of
    another owner. *)
Theorem ownership_filter (vs : DRF.ViewSet) (db : Db) (self : Self)
    (validate : SerializerClass → gmap string ORM.value → result (gmap string ORM.value))
    (serializer_update :
       ∀ m, SerializerClass → Request → row m → gmap string ORM.value → M (row m)) :
  vs ∈ views →
  let m := DRF.model vs in
  (∀ rows r, DRF.get_queryset vs db self = Ok rows → r ∈ rows →
             owned_by m (caller self) r ∧ r ∈ ORM.all m db)
  ∧ DRF.get_queryset vs db self
    = DRF.get_queryset vs (hide_others (caller self) db) self
  ∧ (DRF.get_object vs self db).1
    = (DRF.get_object vs self (hide_others (caller self) db)).1
  ∧ (∀ obj db', DRF.get_object vs self db = (Ok obj, db') →
                owned_by m (caller self) obj ∧ db' = db)
  ∧ ((∀ r, r ∈ ORM.all m db → DRF.pk_of m r = kwargs_pk self →
           ¬ owned_by m (caller self) r) →
     ∃ e, DRF.retrieve vs self db = (Raise e, db)
          ∧ DRF.update validate serializer_update vs self db = (Raise e, db)
          ∧ DRF.destroy vs self db = (Raise e, db)
          ∧ (is_Ok (DRF.get_queryset vs db self) = true → e = Http404))
  ∧ (NoDup (DRF.pk_of m <$> ORM.all m db) →
     ∀ r, r ∈ ORM.all m db → ¬ owned_by m (caller self) r →
          r ∈ ORM.all m (DRF.destroy vs self db).2).
Proof.
  intros Hvs m. subst m. split_and!.
  - intros rows r Hq Hr.
    apply (get_queryset_rows vs db self rows r Hvs Hq) in Hr. tauto.
  - by apply get_queryset_hide_others.
  - rewrite !get_object_unfold, <-(get_queryset_hide_others vs db self Hvs).
    destruct (DRF.get_queryset vs db self) as [qs|e]; [|done].
    by destruct (filter _ qs) as [|o [|o' l]].
  - intros obj db' Hg. apply (get_object_Ok vs self db obj db' Hvs) in Hg. tauto.
  - intros Hno.
    destruct (get_object_not_owned vs self db Hvs Hno) as (e & Hg & He).
    exists e. split_and!; [by apply M_bind_Raise..|done].
  - intros Hnd r Hr Hnot. unfold DRF.destroy.
    destruct (DRF.get_object vs self db) as [[obj|e] db'] eqn:Hg.
    + rewrite (M_bind_Ok _ _ _ _ _ Hg).
      apply (get_object_Ok vs self db obj db' Hvs) in Hg as (-> & Hin & Hpk & Ho).
      run_M. cbn [snd]. rewrite all_delete_row.
      apply list_elem_of_In, filter_In. split; [by apply list_elem_of_In|].
      apply bool_decide_eq_true. intros Heq. apply Hnot.
      assert (r = obj) as ->; [|done].
      apply list_elem_of_lookup in Hr as [i Hi].
      apply list_elem_of_lookup in Hin as [j Hj].
      assert (i = j) as ->.
      { eapply NoDup_lookup; [exact Hnd| |].
        - rewrite list_lookup_fmap, Hi. reflexivity.
        - rewrite list_lookup_fmap, Hj. simpl. by rewrite Heq. }
      congruence.
    + rewrite (M_bind_Raise _ _ _ _ _ Hg). cbn [snd].
      rewrite get_object_unfold in Hg.
      destruct (DRF.get_queryset vs db self) as [qs|e'].
      * destruct (filter _ qs) as [|o [|o' l]]; by inversion Hg; subst.
      * by inversion Hg; subst.
Qed.

Lemma ownership_filter_witness :
  let self := mkSelf (request (Sample.self [])) "retrieve" 2 in
  DRF.retrieve RecipeViewSet.viewset self Sample.db = (Raise Http404, Sample.db)
  ∧ DRF.destroy RecipeViewSet.viewset self Sample.db = (Raise Http404, Sample.db)
  ∧ RecipeViewSet.get_queryset Sample.db self
    = RecipeViewSet.get_queryset (hide_others 1 Sample.db) self.
Proof.
  intros self.
  assert (RecipeViewSet.viewset ∈ views) as Hvs by (unfold views; by left).
  destruct (ownership_filter RecipeViewSet.viewset Sample.db self
              (λ _ d, Ok d) (λ m _ _ r _, mret r) Hvs)
    as (_ & Hhide & _ & _ & Hnot & _).
  destruct Hnot as (e & Hr & _ & Hd & He).
  - intros r Hr Hpk Ho. cbn in Hr.
    repeat (apply elem_of_cons in Hr as [->|Hr]);
      [discriminate Hpk|discriminate Ho|discriminate Hpk|].
    by apply elem_of_nil in Hr.
  - rewrite Hr, Hd, (He eq_refl). split_and!; [done..|exact Hhide].
Defined.

(** ** C8: reuse of existing tags and ingredients *)

Section reconciler.
Implicit Types (db : Db) (k : AttrKind) (owner : Z) (rows : list Attr.t).

Lemma find_owned_app owner name rows rows' :
  Serializers.find_owned owner name (rows ++ rows')
  = match Serializers.find_owned owner name rows with
    | Some a => Some a
    | None => Serializers.find_owned owner name rows'
    end.
Proof.
  unfold Serializers.find_owned.
  induction rows as [|a rows IH]; [done|]. simpl.
  by destruct (bool_decide _).
Qed.

Lemma find_owned_Some owner name rows a :
  Serializers.find_owned owner name rows = Some a →
  a ∈ rows ∧ Attr.user a = owner ∧ Attr.name a = name.
Proof.
  unfold Serializers.find_owned. intros Hf.
  apply find_some in Hf as [Hin Hb].
  apply bool_decide_eq_true in Hb. split; [by apply list_elem_of_In|done].
Qed.

Lemma find_owned_None owner name rows :
  Serializers.find_owned owner name rows = None →
  filter (λ a, Attr.user a = owner ∧ Attr.name a = name) rows = [].
Proof.
  unfold Serializers.find_owned. intros Hf.
  induction rows as [|a rows IH]; [done|]. simpl in Hf.
  destruct (bool_decide _) eqn:Hb; [done|].
  apply bool_decide_eq_false in Hb.
  rewrite filter_cons_False by done. by apply IH.
Qed.

Lemma attr_rows_set k rows db : attr_rows k (set_attr_rows k rows db) = rows.
Proof. by destruct k. Qed.

Lemma recipe_rows_set_attr k rows db :
  recipe_rows (set_attr_rows k rows db) = recipe_rows db.
Proof. by destruct k. Qed.

Lemma set_attr_rows_id k db : set_attr_rows k (attr_rows k db) db = db.
Proof. by destruct k, db. Qed.

Lemma set_attr_rows_twice k rows rows' db :
  set_attr_rows k rows' (set_attr_rows k rows db) = set_attr_rows k rows' db.
Proof. by destruct k. Qed.

(** What [resolve] does: it returns one entity per descriptor and appends
    to the table only entities of the owner whose name had no entity of
    the owner before; every returned entity is the first one of its owner
    and name in the table that comes out. *)
Lemma resolve_spec k owner names db :
  ∃ resolved new,
    Serializers.resolve k owner names db
    = (Ok resolved, set_attr_rows k (attr_rows k db ++ new) db)
    ∧ Forall (λ a, Attr.user a = owner
                   ∧ Serializers.find_owned owner (Attr.name a) (attr_rows k db)
                     = None) new
    ∧ (new = [] ↔
       ∀ name, name ∈ names →
               is_Some (Serializers.find_owned owner name (attr_rows k db)))
    ∧ ∀ i name, names !! i = Some name →
        ∃ a, resolved !! i = Some a
             ∧ Serializers.find_owned owner name (attr_rows k db ++ new) = Some a.
Proof.
  revert db. induction names as [|n ns IH]; intros db.
  - exists [], []. simpl. unfold mret, M_ret.
    rewrite app_nil_r, set_attr_rows_id. split_and!; [done|done| |done].
    split; [|done]. intros _ name Hin. by apply elem_of_nil in Hin.
  - cbn [Serializers.resolve]. unfold Serializers.get_or_create.
    destruct (Serializers.find_owned owner n (attr_rows k db)) as [a|] eqn:Hf.
    + destruct (IH db) as (resolved & new & Hr & Hnew & Hall & Hres).
      exists (a :: resolved), new.
      unfold mbind at 1, M_bind. rewrite Hf.
      unfold mbind at 1, M_bind. rewrite Hr.
      split_and!; [done|done| |].
      * rewrite Hall. split.
        -- intros H name [->|Hin]%elem_of_cons; [by rewrite Hf|by apply H].
        -- intros H name Hin. apply H. by right.
      * intros [|i] name Hi; simpl in Hi.
        -- injection Hi as <-. exists a. split; [done|].
           by rewrite find_owned_app, Hf.
        -- by apply Hres.
    + set (a := Attr.mk (next_id (Attr.id <$> attr_rows k db)) n owner).
      set (db1 := set_attr_rows k (attr_rows k db ++ [a]) db).
      destruct (IH db1) as (resolved & new & Hr & Hnew & Hall & Hres).
      unfold db1 in Hr, Hnew, Hall, Hres.
      rewrite attr_rows_set, set_attr_rows_twice, <-app_assoc in Hr.
      rewrite attr_rows_set in Hnew, Hall, Hres.
      rewrite <-app_assoc in Hres.
      exists (a :: resolved), ([a] ++ new).
      unfold mbind at 1, M_bind. rewrite Hf.
      unfold mbind at 1, M_bind. fold a. rewrite Hr.
      split_and!; [done| | |].
      * apply Forall_app. split; [by apply Forall_singleton|].
        eapply Forall_impl; [exact Hnew|]. intros b [? Hb]. split; [done|].
        rewrite find_owned_app in Hb.
        by destruct (Serializers.find_owned owner (Attr.name b) (attr_rows k db)).
      * split; [done|]. intros H.
        destruct (H n) as [? Hn]; [by left|]. by rewrite Hf in Hn.
      * intros [|i] name Hi; simpl in Hi.
        -- injection Hi as <-. exists a. split; [done|].
           rewrite find_owned_app, Hf, find_owned_app.
           unfold Serializers.find_owned. simpl.
           by rewrite bool_decide_eq_true_2.
        -- by apply Hres.
Qed.
End reconciler.

(** C8: when the descriptors of a payload are resolved, every descriptor
    whose name matches an existing entity of the caller resolves to that
    entity; the table is only extended at its end, so no existing entity is
    changed; no second row of that owner and name is created; and when all
    descriptors match existing entities the database, and with it the
    number of the owner's tags or ingredients, stays as it was. *)
Theorem reconcile_reuses_existing (k : AttrKind) (owner : Z) (names : list string)
    (db : Db) :
  ∃ resolved db',
    Serializers.resolve k owner names db = (Ok resolved, db')
    ∧ attr_rows k db `prefix_of` attr_rows k db'
    ∧ (∀ i name e,
         names !! i = Some name →
         Serializers.find_owned owner name (attr_rows k db) = Some e →
         resolved !! i = Some e
         ∧ e ∈ attr_rows k db'
         ∧ filter (λ a, Attr.user a = owner ∧ Attr.name a = name) (attr_rows k db')
           = filter (λ a, Attr.user a = owner ∧ Attr.name a = name) (attr_rows k db))
    ∧ ((∀ name, name ∈ names →
                is_Some (Serializers.find_owned owner name (attr_rows k db))) →
       db' = db
       ∧ length (filter (λ a, Attr.user a = owner) (attr_rows k db'))
         = length (filter (λ a, Attr.user a = owner) (attr_rows k db))).
Proof.
  destruct (resolve_spec k owner names db) as (resolved & new & Hr & Hnew & Hall & Hres).
  exists resolved, (set_attr_rows k (attr_rows k db ++ new) db).
  rewrite attr_rows_set. split_and!; [done|by eexists| |].
  - intros i name e Hi He.
    destruct (Hres i name Hi) as (a & Ha & Hfa).
    rewrite find_owned_app, He in Hfa. injection Hfa as <-.
    split_and!; [done| |].
    + apply elem_of_app. left. by apply find_owned_Some in He as [? _].
    + rewrite filter_app.
      assert (filter (λ a, Attr.user a = owner ∧ Attr.name a = name) new = [])
        as ->; [|by rewrite app_nil_r].
      clear -Hnew He. induction Hnew as [|b new [Hu Hb] _ IH]; [done|].
      rewrite filter_cons_False; [done|].
      intros [_ Hn]. rewrite Hn, He in Hb. done.
  - intros H. apply Hall in H as ->.
    by rewrite app_nil_r, set_attr_rows_id.
Qed.

Lemma reconcile_reuses_existing_witness :
  Serializers.resolve TagK 1 ["Vegan"; "Vegan"] Sample.db
  = (Ok [Attr.mk 1 "Vegan" 1; Attr.mk 1 "Vegan" 1], Sample.db).
Proof.
  destruct (reconcile_reuses_existing TagK 1 ["Vegan"; "Vegan"] Sample.db)
    as (resolved & db' & Hr & _ & Hreuse & Hsame).
  destruct Hsame as [-> _].
  { intros name Hin.
    repeat (apply elem_of_cons in Hin as [->|Hin]); [by eexists..|].
    by apply elem_of_nil in Hin. }
  rewrite Hr. f_equal. f_equal.
  destruct (Hreuse 0%nat "Vegan" (Attr.mk 1 "Vegan" 1) eq_refl eq_refl) as (H0 & _).
  destruct (Hreuse 1%nat "Vegan" (Attr.mk 1 "Vegan" 1) eq_refl eq_refl) as (H1 & _).
  destruct resolved as [|a [|b [|c l]]]; try discriminate.
  by injection H0 as ->; injection H1 as ->.
Defined.

(** The tests' scenario: a new recipe is posted with the tags [Vegan], which
    [alice] has, and [Breakfast], which is new.  [Vegan] is reused, one tag
    is added, and the recipe is associated with both. *)
Example create_with_existing_tag :
  let payload : gmap string ORM.value :=
    <["title" := ORM.VStr "Chicken Tikka Masala"]>
      (<["tags" := ORM.VNames ["Vegan"; "Breakfast"]]> ∅) in
  let '(r, db') :=
    RecipeViewSet.perform_create (Sample.self [])
      (Serializers.mk RecipeDetailSerializer Sample.alice payload) Sample.db in
  match r with
  | Ok r' => Recipe.tags r' = [1; 4] ∧ Recipe.user r' = 1
  | Raise _ => False
  end
  ∧ tag_rows db' = tag_rows Sample.db ++ [Attr.mk 4 "Breakfast" 1].
Proof. vm_compute. done. Qed.

(** ** C5: the owner of a created recipe *)

Section create.
Implicit Types (db : Db) (k : AttrKind) (rows : list Recipe.t).

Lemma next_id_fresh (ids : list Z) x : x ∈ ids → x < next_id ids.
Proof.
  unfold next_id. induction ids as [|y ids IH]; [by intros ?%elem_of_nil|].
  intros [->|Hin]%elem_of_cons; simpl; [lia|].
  specialize (IH Hin). lia.
Qed.

Lemma set_association_id k ids r :
  Recipe.id (Serializers.set_association k ids r) = Recipe.id r.
Proof. by destruct k. Qed.

Lemma set_association_user k ids r :
  Recipe.user (Serializers.set_association k ids r) = Recipe.user r.
Proof. by destruct k. Qed.

(** Replacing the association of the recipe with key [rid] touches only
    the last row when all rows before it have another key. *)
Lemma replace_association_fresh k ids rid rows r0 :
  (∀ r, r ∈ rows → Recipe.id r ≠ rid) → Recipe.id r0 = rid →
  (λ r, if decide (Recipe.id r = rid)
        then Serializers.set_association k ids r else r) <$> (rows ++ [r0])
  = rows ++ [Serializers.set_association k ids r0].
Proof.
  intros Hrows H0. rewrite fmap_app. f_equal.
  - induction rows as [|r rows IH]; [done|]. simpl.
    rewrite decide_False by (apply Hrows; by left).
    f_equal. apply IH. intros r' Hr'. apply Hrows. by right.
  - simpl. by rewrite decide_True.
Qed.

Lemma find_fresh rid rows r1 :
  (∀ r, r ∈ rows → Recipe.id r ≠ rid) → Recipe.id r1 = rid →
  List.find (λ r, bool_decide (Recipe.id r = rid)) (rows ++ [r1]) = Some r1.
Proof.
  intros Hrows H1. induction rows as [|r rows IH]; simpl.
  - by rewrite bool_decide_eq_true_2.
  - rewrite bool_decide_eq_false_2 by (apply Hrows; by left).
    apply IH. intros r' Hr'. apply Hrows. by right.
Qed.

(** [reconcile] always succeeds, and on the recipes it only replaces the
    association of the recipe it is given. *)
Lemma reconcile_rows k owner names rid db :
  ∃ ids db',
    Serializers.reconcile k owner names rid db = (Ok tt, db')
    ∧ recipe_rows db'
      = (λ r, if decide (Recipe.id r = rid)
              then Serializers.set_association k ids r else r)
          <$> recipe_rows db.
Proof.
  destruct (resolve_spec k owner names db) as (resolved & new & Hr & _).
  unfold Serializers.reconcile. rewrite (M_bind_Ok _ _ _ _ _ Hr).
  unfold modify. do 2 eexists. split; [reflexivity|].
  cbn [set_recipe_rows recipe_rows]. by rewrite recipe_rows_set_attr.
Qed.
End create.

(** C5: [perform_create] always creates the recipe, and the recipe it
    creates belongs to the caller whatever the validated payload holds,
    an entry for [user] included; the recipe is the new last row of the
    table and the rows that were there stay as they were. *)
Theorem created_recipe_owner_is_caller (db : Db) (self : Self)
    (serializer : Serializers.t) :
  ∃ r db',
    RecipeViewSet.perform_create self serializer db = (Ok r, db')
    ∧ Recipe.user r = caller self
    ∧ Recipe.id r = next_id (Recipe.id <$> recipe_rows db)
    ∧ recipe_rows db' = recipe_rows db ++ [r].
Proof.
  unfold RecipeViewSet.perform_create, Serializers.save, Serializers.create.
  set (vd := {["user" := ORM.VModel (User.id (user (request self)))]}
             ∪ Serializers.validated_data serializer).
  set (rid := next_id (Recipe.id <$> recipe_rows db)).
  assert (delete "ingredients" (delete "tags" vd) !! "user"
          = Some (ORM.VModel (caller self))) as Hu.
  { rewrite !lookup_delete_ne by done. unfold vd.
    apply lookup_union_Some_l, lookup_singleton_eq. }
  assert (∀ r, r ∈ recipe_rows db → Recipe.id r ≠ rid) as Hfresh.
  { intros r Hr Heq.
    assert (Recipe.id r < rid); [|lia].
    apply next_id_fresh, list_elem_of_fmap. by exists r. }
  set (rest := delete "ingredients" (delete "tags" vd)) in *.
  set (r0 := Recipe.mk rid (Serializers.str_field rest "title")
               (Serializers.int_field rest "time_minutes")
               (Serializers.int_field rest "price")
               (Serializers.str_field rest "description")
               (Serializers.str_field rest "link") (caller self) "" [] []).
  set (db1 := set_recipe_rows (recipe_rows db ++ [r0]) db).
  assert (Serializers.Recipe_objects_create rest db = (Ok r0, db1)) as Hc.
  { unfold Serializers.Recipe_objects_create. by rewrite Hu. }
  rewrite (M_bind_Ok _ _ _ _ _ Hc).
  destruct (reconcile_rows TagK (User.id (Serializers.context_user serializer))
              (Serializers.descriptors vd "tags") (Recipe.id r0) db1)
    as (ids1 & db2 & Hr1 & Hrows1).
  rewrite (M_bind_Ok _ _ _ _ _ Hr1).
  destruct (reconcile_rows IngredientK (User.id (Serializers.context_user serializer))
              (Serializers.descriptors vd "ingredients") (Recipe.id r0) db2)
    as (ids2 & db3 & Hr2 & Hrows2).
  rewrite (M_bind_Ok _ _ _ _ _ Hr2).
  set (r1 := Serializers.set_association TagK ids1 r0).
  set (r2 := Serializers.set_association IngredientK ids2 r1).
  assert (recipe_rows db3 = recipe_rows db ++ [r2]) as Hrows.
  { rewrite Hrows2, Hrows1. unfold db1. cbn [recipe_rows set_recipe_rows].
    rewrite (replace_association_fresh TagK ids1) by done.
    by rewrite (replace_association_fresh IngredientK ids2). }
  exists r2, db3. unfold query. rewrite Hrows.
  rewrite (find_fresh (Recipe.id r0) (recipe_rows db) r2) by done.
  split_and!; done.
Qed.

(** With an owner in the payload: the validated data name user 2, the
    caller is [alice], user 1, and the recipe is hers. *)
Example create_ignores_payload_user :
  match (RecipeViewSet.perform_create (Sample.self [])
           (Serializers.mk RecipeDetailSerializer Sample.alice
              (<["user" := ORM.VModel 2]> (<["title" := ORM.VStr "Sample recipe"]> ∅)))
           Sample.db).1 with
  | Ok r => Recipe.user r = 1 ∧ Recipe.id r = 4
  | Raise _ => False
  end.
Proof. vm_compute. done. Qed.


(** * Further properties of the view layer *)

(** ** [_params_to_ints]: decimal lists are read back *)

Section decimal.
Implicit Types (s : string) (n z d : Z).

(** Case analysis on a decimal digit. *)
Ltac digit_cases d H :=
  let E := fresh in
  assert (d = 0 ∨ d = 1 ∨ d = 2 ∨ d = 3 ∨ d = 4 ∨ d = 5 ∨ d = 6 ∨ d = 7
          ∨ d = 8 ∨ d = 9) as E by lia;
  clear H; repeat (destruct E as [->|E]); [..|subst d].

Lemma is_nat_digit_char d :
  0 ≤ d < 10 → Ascii.is_nat (Py.digit_char d) = Some (Z.to_nat d).
Proof. intros H. digit_cases d H; reflexivity. Qed.

Lemma digit_char_plain d :
  0 ≤ d < 10 →
  Py.isspace (Py.digit_char d) = false
  ∧ bool_decide ("," = Py.digit_char d)%char = false
  ∧ Py.digit_char d ≠ "-"%char ∧ Py.digit_char d ≠ "+"%char.
Proof. intros H. digit_cases d H; by split_and!. Qed.

(** Reading the digits that [str_go] printed adds the number to the
    accumulator, shifted by the number of digits. *)
Lemma digits_str_go fuel n s :
  0 ≤ n < 2 ^ Z.of_nat (S fuel) →
  ∃ k : nat, ∀ p a,
    Py.digits p a (Py.str_go (S fuel) n s)
    = Py.digits true (a * 10 ^ Z.of_nat k + n) s.
Proof.
  revert n s. induction fuel as [|fuel IH]; intros n s Hn.
  - exists 1%nat. intros p a. cbn [Py.str_go].
    assert (n < 10) as Hlt by (change (2 ^ Z.of_nat 1) with 2 in Hn; lia).
    rewrite (proj2 (Z.ltb_lt n 10) Hlt). cbn [Py.digits].
    rewrite Z.mod_small by lia. rewrite is_nat_digit_char by lia.
    f_equal. rewrite Z2Nat.id by lia. change (10 ^ Z.of_nat 1) with 10. lia.
  - cbn [Py.str_go]. destruct (n <? 10) eqn:Hlt.
    + exists 1%nat. intros p a. apply Z.ltb_lt in Hlt. cbn [Py.digits].
      rewrite Z.mod_small by lia. rewrite is_nat_digit_char by lia.
      f_equal. rewrite Z2Nat.id by lia. change (10 ^ Z.of_nat 1) with 10. lia.
    + apply Z.ltb_ge in Hlt.
      destruct (IH (n / 10) (String (Py.digit_char (n mod 10)) s)) as [k Hk].
      { split; [apply Z.div_pos; lia|].
        apply Z.div_lt_upper_bound; [lia|].
        rewrite (Nat2Z.inj_succ (S fuel)), Z.pow_succ_r in Hn by lia. lia. }
      exists (S k). intros p a. rewrite Hk. cbn [Py.digits].
      pose proof (Z.mod_pos_bound n 10 ltac:(lia)) as Hm.
      rewrite is_nat_digit_char by lia. f_equal. rewrite Z2Nat.id by lia.
      rewrite Nat2Z.inj_succ, Z.pow_succ_r by lia.
      pose proof (Z.div_mod n 10 ltac:(lia)). lia.
Qed.

Lemma str_go_head fuel n s :
  0 ≤ n →
  ∃ d rest, 0 ≤ d < 10 ∧ Py.str_go (S fuel) n s = String (Py.digit_char d) rest.
Proof.
  revert n s. induction fuel as [|fuel IH]; intros n s Hn; cbn [Py.str_go].
  - pose proof (Z.mod_pos_bound n 10 ltac:(lia)).
    exists (n mod 10), s. split; [lia|]. by destruct (n <? 10).
  - pose proof (Z.mod_pos_bound n 10 ltac:(lia)).
    destruct (n <? 10); [by exists (n mod 10), s|].
    apply IH. apply Z.div_pos; lia.
Qed.

Lemma str_go_all_chars (P : ascii → bool) fuel n s :
  (∀ d, 0 ≤ d < 10 → P (Py.digit_char d) = true) →
  0 ≤ n → Py.all_chars P s = true → Py.all_chars P (Py.str_go fuel n s) = true.
Proof.
  intros HP. revert n s. induction fuel as [|fuel IH]; intros n s Hn Hs; [done|].
  cbn [Py.str_go].
  pose proof (Z.mod_pos_bound n 10 ltac:(lia)).
  assert (Py.all_chars P (String (Py.digit_char (n mod 10)) s) = true) as Hs'.
  { cbn [Py.all_chars]. by rewrite HP, Hs by lia. }
  destruct (n <? 10); [done|]. apply IH; [apply Z.div_pos; lia|done].
Qed.

Lemma rev_app_all_chars (P : ascii → bool) s1 s2 :
  Py.all_chars P (String.rev_app s1 s2)
  = Py.all_chars P s1 && Py.all_chars P s2.
Proof.
  revert s2. induction s1 as [|c s1 IH]; intros s2; [done|].
  cbn [String.rev_app Py.all_chars]. rewrite IH. cbn [Py.all_chars].
  by destruct (P c), (Py.all_chars P s1), (Py.all_chars P s2).
Qed.

Lemma rev_app_rev_app s1 s2 s3 :
  String.rev_app (String.rev_app s1 s2) s3 = String.rev_app s2 (s1 +:+ s3).
Proof.
  revert s2 s3. induction s1 as [|c s1 IH]; intros s2 s3; [done|].
  cbn [String.rev_app]. by rewrite IH.
Qed.

Lemma app_empty_r s : s +:+ "" = s.
Proof.
  induction s as [|c s IH]; [done|].
  change (String c (s +:+ "") = String c s). by rewrite IH.
Qed.

Lemma rev_rev s : String.rev (String.rev s) = s.
Proof. unfold String.rev. by rewrite rev_app_rev_app, app_empty_r. Qed.

Lemma lstrip_plain s :
  Py.all_chars (λ c, negb (Py.isspace c)) s = true → Py.lstrip s = s.
Proof.
  destruct s as [|c s]; [done|]. cbn [Py.all_chars Py.lstrip].
  intros [Hc _]%andb_true_iff. by destruct (Py.isspace c).
Qed.

Lemma strip_plain s :
  Py.all_chars (λ c, negb (Py.isspace c)) s = true → Py.strip s = s.
Proof.
  intros Hs. unfold Py.strip. rewrite (lstrip_plain s Hs).
  rewrite lstrip_plain; [apply rev_rev|].
  unfold String.rev. by rewrite rev_app_all_chars, Hs.
Qed.

(** The sign dispatch of [int] on a body that starts with a digit. *)
Lemma int_unsigned c rest z :
  c ≠ "-"%char → c ≠ "+"%char →
  Py.strip (String c rest) = String c rest →
  Py.digits false 0 (String c rest) = Some z →
  Py.ndigits (String c rest) ≤ Py.int_max_str_digits →
  Py.int (String c rest) = Ok z.
Proof.
  intros Hm Hp Hs Hd Hn. unfold Py.int. rewrite Hs.
  destruct c as [[] [] [] [] [] [] [] []];
    try (by rewrite Hd, decide_True by done); done.
Qed.

(** [str_go] writes one digit for each step it takes, so a number below
    [10^k] gets at most [k] of them. *)
Lemma ndigits_str_go fuel n s k :
  0 ≤ n < 10 ^ k → 1 ≤ k →
  Py.ndigits (Py.str_go fuel n s) ≤ k + Py.ndigits s.
Proof.
  revert n s k. induction fuel as [|fuel IH]; intros n s k Hn Hk.
  - cbn [Py.str_go]. lia.
  - cbn [Py.str_go].
    pose proof (Z.mod_pos_bound n 10 ltac:(lia)) as Hm.
    assert (Py.ndigits (String (Py.digit_char (n mod 10)) s)
            = 1 + Py.ndigits s) as Hd.
    { cbn [Py.ndigits]. by rewrite is_nat_digit_char. }
    destruct (n <? 10) eqn:Hlt; [lia|]. apply Z.ltb_ge in Hlt.
    assert (2 ≤ k) as Hk2.
    { destruct (decide (k = 1)) as [->|]; [|lia].
      change (10 ^ 1) with 10 in Hn. lia. }
    specialize (IH (n / 10) (String (Py.digit_char (n mod 10)) s) (k - 1)).
    rewrite Hd in IH. etrans; [apply IH|lia]; [|lia].
    split; [apply Z.div_pos; lia|].
    apply Z.div_lt_upper_bound; [lia|].
    replace k with (Z.succ (k - 1)) in Hn by lia.
    rewrite Z.pow_succ_r in Hn by lia. lia.
Qed.

(** An integer below [10^k] in absolute value is written with at most [k]
    digits. *)
Lemma ndigits_decimal z k :
  Z.abs z < 10 ^ k → 1 ≤ k → Py.ndigits (Py.decimal z) ≤ k.
Proof.
  intros Hz Hk. unfold Py.decimal. destruct (z <? 0) eqn:Hneg.
  - apply Z.ltb_lt in Hneg.
    change (Py.ndigits (String "-" ?s)) with (0 + Py.ndigits s).
    pose proof (ndigits_str_go (S (Z.to_nat (Z.log2 (- z)))) (- z) "" k) as H.
    cbn [Py.ndigits] in H. lia.
  - apply Z.ltb_ge in Hneg.
    pose proof (ndigits_str_go (S (Z.to_nat (Z.log2 z))) z "" k) as H.
    cbn [Py.ndigits] in H. lia.
Qed.

(** [int] reads the decimal writing of an integer back, when it has no
    more digits than [int] accepts. *)
Lemma int_decimal z :
  Py.ndigits (Py.decimal z) ≤ Py.int_max_str_digits →
  Py.int (Py.decimal z) = Ok z.
Proof.
  unfold Py.decimal. destruct (z <? 0) eqn:Hz.
  - apply Z.ltb_lt in Hz.
    set (body := Py.str_go _ _ _).
    change (Py.ndigits (String "-" body)) with (0 + Py.ndigits body).
    intros Hn.
    assert (Py.all_chars (λ c, negb (Py.isspace c)) body = true) as Hplain.
    { apply str_go_all_chars; [|lia|done].
      intros d Hd. by destruct (digit_char_plain d Hd) as (-> & _). }
    unfold Py.int. rewrite strip_plain by (cbn [Py.all_chars]; by rewrite Hplain).
    destruct (digits_str_go (Z.to_nat (Z.log2 (- z))) (- z) "") as [k Hk].
    { split; [lia|]. rewrite Nat2Z.inj_succ, Z2Nat.id by apply Z.log2_nonneg.
      apply Z.log2_spec. lia. }
    fold body in Hk. rewrite Hk. cbn [Py.digits].
    rewrite decide_True by lia. f_equal. lia.
  - apply Z.ltb_ge in Hz.
    set (body := Py.str_go _ _ _). intros Hn.
    assert (Py.all_chars (λ c, negb (Py.isspace c)) body = true) as Hplain.
    { apply str_go_all_chars; [|lia|done].
      intros d Hd. by destruct (digit_char_plain d Hd) as (-> & _). }
    destruct (str_go_head (Z.to_nat (Z.log2 z)) z "" Hz)
      as (d & rest & Hd & Hhead).
    fold body in Hhead.
    destruct (digits_str_go (Z.to_nat (Z.log2 z)) z "") as [k Hk].
    { split; [lia|]. rewrite Nat2Z.inj_succ, Z2Nat.id by apply Z.log2_nonneg.
      destruct (decide (z = 0)) as [->|]; [done|]. apply Z.log2_spec. lia. }
    fold body in Hk.
    destruct (digit_char_plain d Hd) as (_ & _ & Hm & Hp).
    rewrite Hhead in *.
    apply int_unsigned; [done|done|by apply strip_plain| |done].
    rewrite Hk. cbn. by f_equal.
Qed.

(** [str] writes every integer of at most [int_max_str_digits] digits. *)
Lemma comprehension_str (ids : list Z) :
  Forall (λ z, Py.ndigits (Py.decimal z) ≤ Py.int_max_str_digits) ids →
  comprehension Py.str ids = Ok (Py.decimal <$> ids).
Proof.
  induction 1 as [|z ids Hz _ IH]; [done|].
  cbn [comprehension].
  assert (Py.str z = Ok (Py.decimal z)) as ->.
  { unfold Py.str. cbv zeta. by rewrite decide_True. }
  cbn [mbind result_bind]. by rewrite IH.
Qed.
End decimal.

Section split_join.
Implicit Types (s p cur : string) (pieces : list string).

Lemma split_go_piece p cur more :
  comma_free p →
  Py.split_go "," 0 cur p = [String.rev (String.rev_app p cur)]
  ∧ Py.split_go "," 0 cur (p +:+ "," +:+ more)
    = String.rev (String.rev_app p cur) :: Py.split_go "," 0 "" more.
Proof.
  unfold comma_free. revert cur. induction p as [|c p IH]; intros cur Hp.
  - split; reflexivity.
  - cbn [Py.all_chars] in Hp. apply andb_true_iff in Hp as [Hc Hp].
    apply negb_true_iff in Hc.
    change (String c p +:+ "," +:+ more) with (String c (p +:+ "," +:+ more)).
    cbn [Py.split_go Py.startswith]. rewrite Hc. cbn [andb].
    cbn [String.rev_app]. by apply IH.
Qed.

Lemma split_join pieces :
  pieces ≠ [] → Forall comma_free pieces →
  Py.split "," (Py.join "," pieces) = pieces.
Proof.
  intros Hne Hall. unfold Py.split.
  induction Hall as [|p ps Hp Hps IH]; [done|].
  destruct ps as [|q ps].
  - cbn [Py.join]. rewrite (proj1 (split_go_piece p "" "" Hp)).
    by rewrite <-(rev_rev p) at 2.
  - change (Py.join "," (p :: q :: ps))
      with (p +:+ "," +:+ Py.join "," (q :: ps)).
    rewrite (proj2 (split_go_piece p "" (Py.join "," (q :: ps)) Hp)).
    rewrite IH by done. f_equal. apply (rev_rev p).
Qed.

Lemma decimal_comma_free z : comma_free (Py.decimal z).
Proof.
  unfold comma_free, Py.decimal.
  assert (∀ d, 0 ≤ d < 10 →
               negb (bool_decide ("," = Py.digit_char d)%char) = true) as Hd.
  { intros d Hd. by destruct (digit_char_plain d Hd) as (_ & -> & _). }
  destruct (z <? 0) eqn:Hz.
  - apply Z.ltb_lt in Hz. cbn [Py.all_chars].
    rewrite str_go_all_chars; [done|done|lia|done].
  - apply Z.ltb_ge in Hz. by apply str_go_all_chars.
Qed.

Lemma split_go_nonempty sep skip cur s : Py.split_go sep skip cur s ≠ [].
Proof.
  revert skip cur. induction s as [|c s IH]; intros skip cur; [done|].
  cbn [Py.split_go]. destruct skip; [|apply IH].
  destruct (Py.startswith sep (String c s)); [done|apply IH].
Qed.
End split_join.

(** X1: [_params_to_ints] reads back every comma-separated list of integers
    in their decimal writing, as the tests build their query strings with
    an f-string, when every integer is below [10^4300] in absolute value,
    that is, has no more digits than [str] writes and [int] reads; for the
    empty list the string is empty, and its one empty token is refused. *)
Theorem params_to_ints_reads_back (ids : list Z) :
  Forall (λ z, Z.abs z < 10 ^ Py.int_max_str_digits) ids →
  (strs ← comprehension Py.str ids;
   RecipeViewSet._params_to_ints (Py.join "," strs))
  = if decide (ids = []) then Raise (ValueError "") else Ok ids.
Proof.
  intros Hb.
  assert (Forall (λ z, Py.ndigits (Py.decimal z) ≤ Py.int_max_str_digits) ids)
    as Hn.
  { eapply Forall_impl; [exact Hb|]. intros z Hz.
    by apply ndigits_decimal. }
  rewrite (comprehension_str ids Hn). cbn [mbind result_bind].
  destruct (decide (ids = [])) as [->|Hne]; [reflexivity|].
  unfold RecipeViewSet._params_to_ints.
  rewrite split_join.
  - clear Hne Hb. induction Hn as [|z ids Hz _ IH]; [done|].
    cbn [fmap list_fmap comprehension]. rewrite (int_decimal z Hz).
    cbn [mbind result_bind]. fold (fmap (M:=list) Py.decimal ids).
    by rewrite IH.
  - by destruct ids.
  - apply Forall_fmap, Forall_forall. intros z _. apply decimal_comma_free.
Qed.

Lemma params_to_ints_reads_back_witness :
  (strs ← comprehension Py.str [3; -7; 12];
   RecipeViewSet._params_to_ints (Py.join "," strs))
  = Ok [3; -7; 12]
  ∧ Py.join "," ["3"; "-7"; "12"] = "3,-7,12".
Proof.
  split; [|reflexivity].
  apply (params_to_ints_reads_back [3; -7; 12]).
  repeat constructor;
    (apply (Z.lt_le_trans _ (10 ^ 2)); [reflexivity|];
     apply Z.pow_le_mono_r; [reflexivity|by vm_compute]).
Defined.

(** X2: the outcome of [_params_to_ints].  On success there is one integer
    for each comma-separated token, each the value of its token, and at
    least one; on failure the exception is the [ValueError] of the first
    token that is no integer, all tokens before it being integers. *)
Theorem params_to_ints_outcome (qs : string) :
  match RecipeViewSet._params_to_ints qs with
  | Ok ids =>
      Forall2 (λ tok z, Py.int tok = Ok z) (Py.split "," qs) ids ∧ ids ≠ []
  | Raise e =>
      ∃ before tok after,
        Py.split "," qs = before ++ tok :: after
        ∧ Forall (λ t, is_Ok (Py.int t) = true) before
        ∧ Py.int tok = Raise (ValueError tok)
        ∧ e = ValueError tok
  end.
Proof.
  unfold RecipeViewSet._params_to_ints.
  pose proof (split_go_nonempty "," 0 "" qs) as Hne. fold (Py.split "," qs) in Hne.
  assert (∀ toks,
    match comprehension Py.int toks with
    | Ok ids => Forall2 (λ tok z, Py.int tok = Ok z) toks ids
    | Raise e =>
        ∃ before tok after,
          toks = before ++ tok :: after
          ∧ Forall (λ t, is_Ok (Py.int t) = true) before
          ∧ Py.int tok = Raise (ValueError tok)
          ∧ e = ValueError tok
    end) as Hgen.
  { induction toks as [|t toks IH]; [by constructor|].
    cbn [comprehension]. destruct (Py.int t) as [z|e] eqn:Ht;
      cbn [mbind result_bind].
    - destruct (comprehension Py.int toks) as [zs|e]; cbn [mbind result_bind].
      + by constructor.
      + destruct IH as (before & tok & after & -> & Hb & Htok & ->).
        exists (t :: before), tok, after. split_and!; [done| |done|done].
        constructor; [by rewrite Ht|done].
    - pose proof (int_raises _ _ Ht) as ->.
      exists [], t, toks. by split_and!. }
  specialize (Hgen (Py.split "," qs)).
  destruct (comprehension Py.int (Py.split "," qs)) as [ids|e]; [|done].
  split; [done|]. intros ->. apply Forall2_nil_inv_r in Hgen. done.
Qed.

(** ** Requests of the owner *)

Section own_rows.
Implicit Types (db : Db) (self : Self) (vs : DRF.ViewSet).

Lemma remove_dups_NoDup {A} `{EqDecision A} (l : list A) :
  NoDup l → remove_dups l = l.
Proof.
  induction 1 as [|x l Hx Hl IH]; [done|]. simpl.
  destruct (decide_rel elem_of x l); [done|]. by rewrite IH.
Qed.

Lemma NoDup_all_equal {A} (l : list A) (x : A) :
  NoDup l → x ∈ l → (∀ y, y ∈ l → y = x) → l = [x].
Proof.
  intros Hnd Hx Hall. destruct l as [|a [|b l]].
  - by apply elem_of_nil in Hx.
  - f_equal. apply Hall. by left.
  - assert (a = x) as -> by (apply Hall; by left).
    assert (b = x) as -> by (apply Hall; right; by left).
    apply NoDup_cons in Hnd as [Hnin _]. destruct Hnin. by left.
Qed.

(** Rows of a table with unique keys are told apart by their key. *)
Lemma unique_pk_inj m db (x y : row m) :
  unique_pk m db → x ∈ ORM.all m db → y ∈ ORM.all m db →
  DRF.pk_of m x = DRF.pk_of m y → x = y.
Proof.
  unfold unique_pk. intros Hnd Hx Hy Heq.
  apply list_elem_of_lookup in Hx as [i Hi].
  apply list_elem_of_lookup in Hy as [j Hj].
  assert (i = j) as ->; [|congruence].
  eapply NoDup_lookup; [exact Hnd| |].
  - rewrite list_lookup_fmap, Hi. reflexivity.
  - rewrite list_lookup_fmap, Hj. simpl. by rewrite Heq.
Qed.

Lemma unique_pk_NoDup m db : unique_pk m db → NoDup (ORM.all m db).
Proof. apply NoDup_fmap_1. Qed.

(** With unique keys a queryset holds no row twice. *)
Lemma get_queryset_NoDup vs db self rows :
  vs ∈ views → unique_pk (DRF.model vs) db →
  DRF.get_queryset vs db self = Ok rows → NoDup rows.
Proof.
  intros Hvs Hu. apply unique_pk_NoDup in Hu. unfold views in Hvs.
  repeat (apply elem_of_cons in Hvs as [->|Hvs]);
    [..|by apply elem_of_nil in Hvs];
    cbn [DRF.get_queryset DRF.model RecipeViewSet.viewset TagViewSet.viewset
         IngredientViewSet.viewset ORM.all] in *.
  - intros (_ & _ & ->)%get_queryset_Ok. apply NoDup_remove_dups.
  - rewrite tag_get_queryset. intros [= <-].
    rewrite merge_sort_Permutation. by apply NoDup_filter.
  - rewrite ingredient_get_queryset. intros [= <-].
    rewrite merge_sort_Permutation. by apply NoDup_filter.
Qed.

(** Whether a queryset is built depends on the request alone. *)
Lemma get_queryset_is_Ok_indep vs db db' self :
  vs ∈ views →
  is_Ok (DRF.get_queryset vs db self) = is_Ok (DRF.get_queryset vs db' self).
Proof.
  intros Hvs. unfold views in Hvs.
  repeat (apply elem_of_cons in Hvs as [->|Hvs]);
    [..|by apply elem_of_nil in Hvs];
    cbn [DRF.get_queryset RecipeViewSet.viewset TagViewSet.viewset
         IngredientViewSet.viewset].
  - destruct (Py.truthy (tags_param self) || Py.truthy (ingredients_param self))
      eqn:Hf.
    + by rewrite (recipe_get_queryset_filtered_indep db db' self Hf).
    + apply orb_false_iff in Hf as [Ht Hi].
      by rewrite !(get_queryset_unfiltered _ self Ht Hi).
  - by rewrite !tag_get_queryset.
  - by rewrite !ingredient_get_queryset.
Qed.

(** [get_object] finds the caller's own row under the key of the URL. *)
Lemma get_object_own vs db self (r : row (DRF.model vs)) :
  vs ∈ views → unique_pk (DRF.model vs) db →
  r ∈ ORM.all (DRF.model vs) db →
  owned_by (DRF.model vs) (caller self) r →
  DRF.pk_of (DRF.model vs) r = kwargs_pk self →
  is_Ok (DRF.get_queryset vs db self) = true →
  DRF.get_object vs self db = (Ok r, db).
Proof.
  intros Hvs Hu Hr Ho Hpk Hok. rewrite get_object_unfold.
  destruct (DRF.get_queryset vs db self) as [qs|e] eqn:Hq; [|done].
  rewrite (NoDup_all_equal
             (filter (λ x, DRF.pk_of (DRF.model vs) x = kwargs_pk self) qs) r);
    [done| | |].
  - apply NoDup_filter. by eapply get_queryset_NoDup.
  - apply list_elem_of_filter. split; [done|].
    by apply (get_queryset_rows vs db self qs r Hvs Hq).
  - intros y [Hy Hin]%list_elem_of_filter.
    apply (get_queryset_rows vs db self qs y Hvs Hq) in Hin as [Hin _].
    apply (unique_pk_inj _ db); [done..|congruence].
Qed.
End own_rows.

Section responses.
Implicit Types (db : Db) (self : Self) (vs : DRF.ViewSet) (h : HttpRequest).

(** A key of the token table whose user exists authenticates the request
    as that user. *)
Lemma initial_valid_token vs db h key u :
  vs ∈ views → unique_pk UserM db →
  authorization h = Some key →
  ORM.assoc key (tokens db) = Some (User.id u) →
  u ∈ users db →
  DRF.initial vs db h = Ok (mkRequest h u).
Proof.
  intros Hvs Huniq Hkey Htok Hu.
  assert (DRF.authentication_classes vs = [DRF.TokenAuthentication]
          ∧ DRF.permission_classes vs = [DRF.IsAuthenticated]) as [Ha Hp].
  { unfold views in Hvs.
    repeat (apply elem_of_cons in Hvs as [->|Hvs]); [done..|].
    by apply elem_of_nil in Hvs. }
  assert (List.find (λ u', bool_decide (User.id u' = User.id u)) (users db)
          = Some u) as Hfind.
  { destruct (List.find _ (users db)) as [u'|] eqn:Hf.
    - apply find_some in Hf as [Hin Heq]. apply bool_decide_eq_true in Heq.
      f_equal. apply (unique_pk_inj UserM db); [done| |done..].
      by apply list_elem_of_In.
    - apply list_elem_of_In in Hu.
      pose proof (find_none _ _ Hf u Hu) as Hb.
      by apply bool_decide_eq_false in Hb. }
  unfold DRF.initial, DRF.check_permissions. rewrite Ha, Hp.
  cbn [DRF.perform_authentication DRF.authenticate].
  by rewrite Hkey, Htok, Hfind.
Qed.
End responses.

(** X3: a request with a valid token reaches the handler of its action,
    with the user of the token as [request.user]; the response is what the
    handler returns, or the answer to the exception it raises. *)
Theorem valid_token_reaches_handler (vs : DRF.ViewSet)
    (handler : Self → M DRF.Response) (action : string) (pk : Z)
    (h : HttpRequest) (db : Db) (key : string) (u : User.t) :
  vs ∈ views → unique_pk UserM db →
  authorization h = Some key →
  ORM.assoc key (tokens db) = Some (User.id u) →
  u ∈ users db →
  DRF.dispatch vs handler action pk h db
  = match handler (mkSelf (mkRequest h u) action pk) db with
    | (Ok resp, db') => (resp, db')
    | (Raise e, db') => (DRF.error_response e, db')
    end.
Proof.
  intros Hvs Huniq Hkey Htok Hu. unfold DRF.dispatch.
  by rewrite (initial_valid_token vs db h key u).
Qed.

Lemma valid_token_reaches_handler_witness :
  DRF.dispatch TagViewSet.viewset (DRF.list TagViewSet.viewset) "list" 0
    (mkHttp (Some "key-bob") [] ∅) Sample.db
  = (DRF.mkResponse 200 [[("id", ORM.VInt 3); ("name", ORM.VStr "Dessert")]],
     Sample.db).
Proof.
  rewrite (valid_token_reaches_handler TagViewSet.viewset _ "list" 0
             (mkHttp (Some "key-bob") [] ∅) Sample.db "key-bob" Sample.bob).
  - vm_compute. reflexivity.
  - unfold views. right. by left.
  - unfold unique_pk. compute_done.
  - reflexivity.
  - reflexivity.
  - right. by left.
Defined.

(** X4: every list request on recipes with a valid token and a [tags] or
    [ingredients] parameter that is not empty is answered 500, and the
    database is left as it was: the queryset is never built. *)
Theorem filtered_list_is_answered_500 (db : Db) (h : HttpRequest) (key : string)
    (u : User.t) (pk : Z) :
  unique_pk UserM db →
  authorization h = Some key →
  ORM.assoc key (tokens db) = Some (User.id u) →
  u ∈ users db →
  Py.truthy (QueryDict.get "tags" (query_params h))
  || Py.truthy (QueryDict.get "ingredients" (query_params h)) = true →
  DRF.dispatch RecipeViewSet.viewset (DRF.list RecipeViewSet.viewset)
    "list" pk h db
  = (DRF.mkResponse 500 [], db).
Proof.
  intros Huniq Hkey Htok Hu Hf. unfold DRF.dispatch.
  rewrite (initial_valid_token _ db h key u); [|by left|done..].
  set (self := mkSelf (mkRequest h u) "list" pk).
  destruct (recipe_filter_always_raises db self Hf) as (e & Hq & He).
  unfold DRF.list.
  rewrite (M_bind_Raise _ _ db e db);
    [|unfold query; exact (f_equal (λ x, (x, db)) Hq)].
  unfold DRF.error_response. by rewrite He.
Qed.

Lemma filtered_list_is_answered_500_witness :
  DRF.dispatch RecipeViewSet.viewset (DRF.list RecipeViewSet.viewset)
    "list" 0 (mkHttp (Some "key-alice") [("ingredients", "1")] ∅) Sample.db
  = (DRF.mkResponse 500 [], Sample.db).
Proof.
  apply (filtered_list_is_answered_500 Sample.db _ "key-alice" Sample.alice).
  - unfold unique_pk. compute_done.
  - reflexivity.
  - reflexivity.
  - by left.
  - reflexivity.
Defined.

(** X5: a list request on recipes without a filter parameter (absent or
    empty) is answered 200 with the summary rendering of exactly the
    caller's recipes, each one once, in descending order of identifier;
    the database is only read. *)
Theorem unfiltered_list_response (db : Db) (self : Self) :
  action self = "list" →
  Py.truthy (tags_param self) = false →
  Py.truthy (ingredients_param self) = false →
  ∃ rows,
    DRF.list RecipeViewSet.viewset self db
    = (Ok (DRF.mkResponse 200
             (Serializers.to_representation RecipeM
                (Serializers.Meta_fields RecipeSerializer) <$> rows)), db)
    ∧ NoDup rows
    ∧ StronglySorted (λ a b, Recipe.id b ≤ Recipe.id a) rows
    ∧ ∀ r, r ∈ rows ↔ r ∈ recipe_rows db ∧ Recipe.user r = caller self.
Proof.
  intros Ha Ht Hi.
  pose proof (get_queryset_unfiltered db self Ht Hi) as Hq.
  eexists. split_and!.
  - unfold DRF.list, DRF.render.
    cbn [DRF.get_queryset DRF.get_serializer_class RecipeViewSet.viewset
         DRF.model].
    run_M. rewrite Hq. unfold RecipeViewSet.get_serializer_class.
    by rewrite decide_True.
  - apply NoDup_remove_dups.
  - apply StronglySorted_remove_dups.
    apply (StronglySorted_merge_sort (ORM.key_order Z.le Recipe.id true)).
  - intros r.
    rewrite elem_of_remove_dups, merge_sort_Permutation, list_elem_of_filter.
    simpl. tauto.
Qed.

Lemma unfiltered_list_response_witness :
  (DRF.list RecipeViewSet.viewset (Sample.self [("tags", "")]) Sample.db).2
  = Sample.db
  ∧ ∃ rows,
      DRF.list RecipeViewSet.viewset (Sample.self [("tags", "")]) Sample.db
      = (Ok (DRF.mkResponse 200
               (Serializers.to_representation RecipeM
                  (Serializers.Meta_fields RecipeSerializer) <$> rows)),
         Sample.db)
      ∧ length rows = 2%nat.
Proof.
  destruct (unfiltered_list_response Sample.db (Sample.self [("tags", "")])
              eq_refl eq_refl eq_refl) as (rows & Hl & Hnd & _ & Hin).
  rewrite Hl. split; [done|]. exists rows. split; [done|].
  revert Hl. vm_compute. intros [= Hl].
  destruct rows as [|a [|b [|c rows]]]; try discriminate. done.
Defined.

(** X6: retrieving one's own recipe.  When the keys of the table are
    unique, the key of the URL is that of a recipe of the caller, and the
    request has no filter parameter, the answer is 200 with the detail
    rendering of that recipe, and the database is only read. *)
Theorem retrieve_own_recipe (db : Db) (self : Self) (r : Recipe.t) :
  unique_pk RecipeM db →
  r ∈ recipe_rows db →
  Recipe.user r = caller self →
  Recipe.id r = kwargs_pk self →
  Py.truthy (tags_param self) = false →
  Py.truthy (ingredients_param self) = false →
  action self ≠ "list" →
  DRF.retrieve RecipeViewSet.viewset self db
  = (Ok (DRF.mkResponse 200
           [Serializers.to_representation RecipeM
              (Serializers.Meta_fields RecipeDetailSerializer) r]), db).
Proof.
  intros Hu Hr Ho Hpk Ht Hi Ha.
  assert (DRF.get_object RecipeViewSet.viewset self db = (Ok r, db)) as Hg.
  { apply get_object_own; [by left|done..|].
    cbn [DRF.get_queryset RecipeViewSet.viewset].
    by rewrite (get_queryset_unfiltered db self Ht Hi). }
  unfold DRF.retrieve. rewrite (M_bind_Ok _ _ _ _ _ Hg).
  unfold mret, M_ret, DRF.render.
  cbn [DRF.get_serializer_class RecipeViewSet.viewset DRF.model].
  unfold RecipeViewSet.get_serializer_class. by rewrite decide_False.
Qed.

Lemma retrieve_own_recipe_witness :
  DRF.retrieve RecipeViewSet.viewset
    (mkSelf (request (Sample.self [])) "retrieve" 3) Sample.db
  = (Ok (DRF.mkResponse 200
           [Serializers.to_representation RecipeM
              (Serializers.Meta_fields RecipeDetailSerializer)
              (Sample.recipe 3 1 [] [2])]), Sample.db).
Proof.
  apply retrieve_own_recipe.
  - unfold unique_pk. compute_done.
  - right. right. by left.
  - reflexivity.
  - reflexivity.
  - reflexivity.
  - reflexivity.
  - discriminate.
Defined.

(** X7: deleting one's own recipe, tag or ingredient.  On each of the three
    view classes, when the keys of the table are unique, the key of the URL
    is that of a row of the caller and the queryset is built, delete
    answers 204; afterwards the row is gone, every other row of the table
    is still there and none was added, and the same request again finds
    nothing: [get_object] and delete raise [Http404] and change nothing. *)
Theorem delete_own_row (vs : DRF.ViewSet) (db : Db) (self : Self)
    (r : row (DRF.model vs)) :
  vs ∈ views →
  unique_pk (DRF.model vs) db →
  r ∈ ORM.all (DRF.model vs) db →
  owned_by (DRF.model vs) (caller self) r →
  DRF.pk_of (DRF.model vs) r = kwargs_pk self →
  is_Ok (DRF.get_queryset vs db self) = true →
  ∃ db',
    DRF.destroy vs self db = (Ok (DRF.mkResponse 204 []), db')
    ∧ (r ∉ ORM.all (DRF.model vs) db')
    ∧ (∀ x, x ∈ ORM.all (DRF.model vs) db'
            ↔ x ∈ ORM.all (DRF.model vs) db ∧ x ≠ r)
    ∧ DRF.get_object vs self db' = (Raise Http404, db')
    ∧ DRF.destroy vs self db' = (Raise Http404, db').
Proof.
  intros Hvs Hu Hr Ho Hpk Hok.
  pose proof (get_object_own vs db self r Hvs Hu Hr Ho Hpk Hok) as Hg.
  set (db' := DRF.delete_row (DRF.model vs) (DRF.pk_of (DRF.model vs) r) db).
  assert (∀ x, x ∈ ORM.all (DRF.model vs) db'
               ↔ x ∈ ORM.all (DRF.model vs) db ∧ x ≠ r) as Hrows.
  { intros x. unfold db'. rewrite all_delete_row.
    rewrite list_elem_of_In, filter_In, <-list_elem_of_In, bool_decide_eq_true.
    split; intros [Hx Hne]; (split; [done|]).
    - by intros ->.
    - intros Heq. apply Hne. by apply (unique_pk_inj _ db). }
  assert (DRF.get_object vs self db' = (Raise Http404, db')) as Hg'.
  { destruct (get_object_not_owned vs self db' Hvs) as (e & He & H404).
    - intros x [Hx Hne]%Hrows Hpkx _. apply Hne.
      apply (unique_pk_inj _ db); [done..|congruence].
    - rewrite He, H404; [done|].
      by rewrite <-(get_queryset_is_Ok_indep vs db db' self Hvs). }
  exists db'. split_and!.
  - unfold DRF.destroy. rewrite (M_bind_Ok _ _ _ _ _ Hg). by run_M.
  - intros [_ Hne]%Hrows. done.
  - done.
  - done.
  - unfold DRF.destroy. by rewrite (M_bind_Raise _ _ _ _ _ Hg').
Qed.

Lemma delete_own_row_witness :
  DRF.destroy TagViewSet.viewset
    (mkSelf (request (Sample.self [])) "destroy" 2) Sample.db
  = (Ok (DRF.mkResponse 204 []),
     DRF.delete_row TagM 2 Sample.db)
  ∧ tag_rows (DRF.delete_row TagM 2 Sample.db)
    = [Attr.mk 1 "Vegan" 1; Attr.mk 3 "Dessert" 2].
Proof.
  destruct (delete_own_row TagViewSet.viewset Sample.db
              (mkSelf (request (Sample.self [])) "destroy" 2)
              (Attr.mk 2 "Vegetarian" 1)) as (db' & Hd & _).
  - unfold views. right. by left.
  - unfold unique_pk. compute_done.
  - right. by left.
  - reflexivity.
  - reflexivity.
  - reflexivity.
  - split; [|reflexivity]. rewrite Hd. f_equal.
    revert Hd. vm_compute. by intros [= <-].
Defined.

(** ** The recipe the tests create *)

Section newest_first.
Implicit Types (db : Db) (self : Self).

(** A row whose key is above every key of the list is sorted in front by
    [order_by('-id')], when the keys of the list are unique. *)
Lemma merge_sort_desc_snoc (l : list Recipe.t) (r : Recipe.t) :
  NoDup (Recipe.id <$> l) →
  (∀ x, x ∈ l → Recipe.id x < Recipe.id r) →
  merge_sort (ORM.key_order Z.le Recipe.id true) (l ++ [r])
  = r :: merge_sort (ORM.key_order Z.le Recipe.id true) l.
Proof.
  intros Hnd Hlt.
  set (R := ORM.key_order Z.le Recipe.id true).
  assert (∀ x, x ∈ merge_sort R l → x ∈ l) as Hms.
  { intros x. by rewrite merge_sort_Permutation. }
  apply (StronglySorted_unique_strong R).
  - intros x1 x2 H1 H2 H12 H21.
    rewrite merge_sort_Permutation in H1.
    assert (Recipe.id x1 = Recipe.id x2) as Heq.
    { unfold R, ORM.key_order in H12, H21. lia. }
    apply elem_of_app in H1 as [H1|H1%list_elem_of_singleton];
      apply elem_of_cons in H2 as [H2|H2%Hms]; subst.
    + specialize (Hlt _ H1). lia.
    + apply list_elem_of_lookup in H1 as [i Hi].
      apply list_elem_of_lookup in H2 as [j Hj].
      assert (i = j) as ->; [|congruence].
      eapply NoDup_lookup; [exact Hnd| |].
      * rewrite list_lookup_fmap, Hi. reflexivity.
      * rewrite list_lookup_fmap, Hj. simpl. by rewrite Heq.
    + done.
    + specialize (Hlt _ H2). lia.
  - apply (StronglySorted_merge_sort R).
  - constructor; [apply (StronglySorted_merge_sort R)|].
    apply Forall_forall. intros x Hx%Hms.
    specialize (Hlt _ Hx). unfold R, ORM.key_order. lia.
  - rewrite !merge_sort_Permutation. symmetry. apply Permutation_cons_append.
Qed.

Lemma NoDup_fmap_filter {A B} (f : A → B) (P : A → Prop)
    `{!∀ x, Decision (P x)} (l : list A) :
  NoDup (f <$> l) → NoDup (f <$> filter P l).
Proof.
  induction l as [|x l IH]; [done|]. rewrite fmap_cons.
  intros [Hx Hl]%NoDup_cons. specialize (IH Hl).
  destruct (decide (P x)).
  - rewrite filter_cons_True by done. rewrite fmap_cons.
    apply NoDup_cons. split; [|done].
    intros (y & Hy & [_ Hin]%list_elem_of_filter)%list_elem_of_fmap.
    apply Hx. apply list_elem_of_fmap. by exists y.
  - by rewrite filter_cons_False.
Qed.

(** What the helper of the tests does to the database: one row is appended
    to the recipe table, with the next key, the user passed in, no tags and
    no ingredients, and the columns of the keyword arguments laid over the
    defaults. *)
Lemma create_recipe_appends db (u : User.t) (params : gmap string ORM.value) :
  map_Forall (λ k v, Tests.column_kwarg k v = true) params →
  ∃ r,
    Tests.create_recipe u params db
    = (Ok r, set_recipe_rows (recipe_rows db ++ [r]) db)
    ∧ Recipe.id r = next_id (Recipe.id <$> recipe_rows db)
    ∧ Recipe.user r = User.id u
    ∧ Recipe.tags r = [] ∧ Recipe.ingredients r = []
    ∧ Recipe.title r = Serializers.str_field (params ∪ Tests.defaults) "title".
Proof.
  intros Hp. unfold Tests.create_recipe. rewrite decide_True by done. cbv zeta.
  unfold Serializers.Recipe_objects_create. rewrite lookup_insert_eq.
  eexists. split; [reflexivity|]. split_and!; [done..|].
  cbn [Recipe.title]. unfold Serializers.str_field.
  by rewrite lookup_insert_ne.
Qed.

Lemma next_id_above db (r x : Recipe.t) :
  Recipe.id r = next_id (Recipe.id <$> recipe_rows db) →
  x ∈ recipe_rows db → Recipe.id x < Recipe.id r.
Proof.
  intros -> Hx. apply next_id_fresh. apply list_elem_of_fmap. by exists x.
Qed.

Lemma filter_all {A} (f : A → bool) (l : list A) :
  (∀ x, x ∈ l → f x = true) → List.filter f l = l.
Proof.
  induction l as [|x l IH]; [done|]. intros Hall. simpl.
  rewrite (Hall x) by (by left). f_equal. apply IH.
  intros y Hy. apply Hall. by right.
Qed.
End newest_first.

(** X8: [create_recipe] of the tests and the list of the view.  With
    keyword arguments that are columns of the recipe, the helper appends
    one row to the recipe table and changes nothing else; the row has a key
    above every key of the table, belongs to the user passed in, has no
    tags and no ingredients, and takes its title from the keyword argument
    when there is one and from the defaults otherwise.  When the keys of
    the table are unique, the next unfiltered list of that user has the new
    recipe in front of what it had before. *)
Theorem created_recipe_is_listed_first (db : Db) (self : Self) (u : User.t)
    (params : gmap string ORM.value) :
  map_Forall (λ k v, Tests.column_kwarg k v = true) params →
  unique_pk RecipeM db →
  caller self = User.id u →
  Py.truthy (tags_param self) = false →
  Py.truthy (ingredients_param self) = false →
  ∃ r rows,
    Tests.create_recipe u params db
    = (Ok r, set_recipe_rows (recipe_rows db ++ [r]) db)
    ∧ (∀ x, x ∈ recipe_rows db → Recipe.id x < Recipe.id r)
    ∧ Recipe.user r = User.id u
    ∧ Recipe.tags r = [] ∧ Recipe.ingredients r = []
    ∧ Recipe.title r
      = match params !! "title" with
        | Some (ORM.VStr s) => s
        | _ => "Sampple recipe title"
        end
    ∧ RecipeViewSet.get_queryset db self = Ok rows
    ∧ RecipeViewSet.get_queryset
        (set_recipe_rows (recipe_rows db ++ [r]) db) self
      = Ok (r :: rows).
Proof.
  intros Hp Hu Hc Ht Hi.
  destruct (create_recipe_appends db u params Hp)
    as (r & Hcr & Hid & Huser & Htags & Hingr & Htitle).
  pose proof (λ x, next_id_above db r x Hid) as Hfresh.
  exists r, (remove_dups
               (merge_sort (ORM.key_order Z.le Recipe.id true)
                  (filter (owned_by RecipeM (caller self)) (recipe_rows db)))).
  split_and!; [done..| | |].
  - rewrite Htitle. unfold Serializers.str_field.
    destruct (params !! "title") as [v|] eqn:Hv.
    + rewrite (lookup_union_Some_l _ _ _ _ Hv).
      specialize (Hp _ _ Hv). destruct v; try done.
    + by rewrite (lookup_union_r _ _ _ Hv).
  - by apply get_queryset_unfiltered.
  - rewrite (get_queryset_unfiltered _ self Ht Hi). f_equal.
    cbn [recipe_rows set_recipe_rows]. rewrite filter_app.
    rewrite (filter_cons_True _ r []) by (simpl; congruence).
    rewrite filter_nil.
    rewrite merge_sort_desc_snoc.
    + simpl. destruct (decide_rel elem_of r _) as [Hin|]; [|done].
      rewrite merge_sort_Permutation in Hin.
      apply list_elem_of_filter in Hin as [_ Hin].
      specialize (Hfresh _ Hin). lia.
    + by apply NoDup_fmap_filter.
    + intros x [_ Hx]%list_elem_of_filter. by apply Hfresh.
Qed.

Lemma created_recipe_is_listed_first_witness :
  ∃ r rows,
    Tests.create_recipe Sample.alice {["title" := ORM.VStr "Curry"]} Sample.db
    = (Ok r, set_recipe_rows (recipe_rows Sample.db ++ [r]) Sample.db)
    ∧ Recipe.id r = 4 ∧ Recipe.title r = "Curry"
    ∧ RecipeViewSet.get_queryset
        (set_recipe_rows (recipe_rows Sample.db ++ [r]) Sample.db)
        (Sample.self [])
      = Ok (r :: rows)
    ∧ length rows = 2%nat.
Proof.
  destruct (created_recipe_is_listed_first Sample.db (Sample.self [])
              Sample.alice {["title" := ORM.VStr "Curry"]})
    as (r & rows & Hc & _ & _ & _ & _ & Htitle & Hq & Hq').
  - by apply map_Forall_singleton.
  - unfold unique_pk. compute_done.
  - reflexivity.
  - reflexivity.
  - reflexivity.
  - exists r, rows. split; [done|].
    assert (Recipe.id r = 4) as Hid.
    { revert Hc. unfold Tests.create_recipe.
      rewrite decide_True by (by apply map_Forall_singleton).
      cbv zeta. unfold Serializers.Recipe_objects_create.
      rewrite lookup_insert_eq. by intros [= <- _]. }
    split_and!; [done| |done|].
    + by rewrite Htitle, lookup_singleton_eq.
    + revert Hq. vm_compute. intros [= <-]. reflexivity.
Defined.

(** X9: the filter parameters reach every action on one recipe as well.
    With a valid token and a [tags] or [ingredients] parameter that is not
    empty, retrieve, update (whatever the serializer does) and delete are
    answered 500 and leave the database as it was, whatever the key of the
    URL is: [get_object] takes its rows from [get_queryset], which fails
    before any row is looked at. *)
Theorem filtered_detail_is_answered_500
    (validate : SerializerClass → gmap string ORM.value
                → result (gmap string ORM.value))
    (serializer_update : ∀ m, SerializerClass → Request → row m
                         → gmap string ORM.value → M (row m))
    (db : Db) (h : HttpRequest) (key : string) (u : User.t)
    (action : string) (pk : Z) :
  unique_pk UserM db →
  authorization h = Some key →
  ORM.assoc key (tokens db) = Some (User.id u) →
  u ∈ users db →
  Py.truthy (QueryDict.get "tags" (query_params h))
  || Py.truthy (QueryDict.get "ingredients" (query_params h)) = true →
  DRF.dispatch RecipeViewSet.viewset (DRF.retrieve RecipeViewSet.viewset)
    action pk h db
  = (DRF.mkResponse 500 [], db)
  ∧ DRF.dispatch RecipeViewSet.viewset
      (DRF.update validate serializer_update RecipeViewSet.viewset)
      action pk h db
    = (DRF.mkResponse 500 [], db)
  ∧ DRF.dispatch RecipeViewSet.viewset (DRF.destroy RecipeViewSet.viewset)
      action pk h db
    = (DRF.mkResponse 500 [], db).
Proof.
  intros Huniq Hkey Htok Hu Hf. unfold DRF.dispatch.
  rewrite (initial_valid_token _ db h key u); [|by left|done..].
  set (self := mkSelf (mkRequest h u) action pk).
  destruct (recipe_filter_always_raises db self Hf) as (e & Hq & He).
  assert (DRF.get_object RecipeViewSet.viewset self db = (Raise e, db)) as Hg.
  { rewrite get_object_unfold. cbn [DRF.get_queryset RecipeViewSet.viewset].
    by rewrite Hq. }
  unfold DRF.retrieve, DRF.update, DRF.destroy.
  rewrite !(M_bind_Raise _ _ _ _ _ Hg).
  unfold DRF.error_response. by rewrite He.
Qed.

Lemma filtered_detail_is_answered_500_witness :
  DRF.dispatch RecipeViewSet.viewset (DRF.destroy RecipeViewSet.viewset)
    "destroy" 1 (mkHttp (Some "key-alice") [("tags", "1")] ∅) Sample.db
  = (DRF.mkResponse 500 [], Sample.db).
Proof.
  apply (filtered_detail_is_answered_500 (λ _ d, Ok d) (λ _ _ _ r _, mret r)
           Sample.db _ "key-alice" Sample.alice).
  - unfold unique_pk. compute_done.
  - reflexivity.
  - reflexivity.
  - by left.
  - reflexivity.
Defined.

(** X10: create and delete.  A recipe made by [create_recipe] of the tests
    and then deleted by its owner under the key it was given, in a request
    without a filter parameter, is answered 204, and afterwards every table
    holds exactly the rows it held before the recipe was created. *)
Theorem create_then_delete_restores (db : Db) (u : User.t)
    (params : gmap string ORM.value) (req : Request) (action : string) :
  map_Forall (λ k v, Tests.column_kwarg k v = true) params →
  User.id (user req) = User.id u →
  Py.truthy (QueryDict.get "tags" (query_params (http req))) = false →
  Py.truthy (QueryDict.get "ingredients" (query_params (http req))) = false →
  (recipe ← Tests.create_recipe u params;
   DRF.destroy RecipeViewSet.viewset (mkSelf req action (Recipe.id recipe))) db
  = (Ok (DRF.mkResponse 204 []), db).
Proof.
  intros Hp Hc Ht Hi.
  destruct (create_recipe_appends db u params Hp)
    as (r & Hcr & Hid & Huser & _).
  pose proof (λ x, next_id_above db r x Hid) as Hfresh.
  rewrite (M_bind_Ok _ _ _ _ _ Hcr).
  set (db1 := set_recipe_rows (recipe_rows db ++ [r]) db).
  set (self := mkSelf req action (Recipe.id r)).
  assert (DRF.get_object RecipeViewSet.viewset self db1 = (Ok r, db1)) as Hg.
  { rewrite get_object_unfold. cbn [DRF.get_queryset RecipeViewSet.viewset].
    rewrite (get_queryset_unfiltered db1 self Ht Hi).
    rewrite (NoDup_all_equal _ r); [done| | |].
    - apply NoDup_filter, NoDup_remove_dups.
    - apply list_elem_of_filter. split; [done|].
      rewrite elem_of_remove_dups, merge_sort_Permutation, list_elem_of_filter.
      split; [simpl; unfold caller; simpl; congruence|].
      apply elem_of_app. right. by left.
    - intros y [Hy Hin]%list_elem_of_filter.
      rewrite elem_of_remove_dups, merge_sort_Permutation, list_elem_of_filter
        in Hin.
      destruct Hin as [_ Hin]. cbn [recipe_rows db1 set_recipe_rows] in Hin.
      apply elem_of_app in Hin as [Hin|Hin%list_elem_of_singleton]; [|done].
      specialize (Hfresh _ Hin). simpl in Hy. lia. }
  unfold DRF.destroy. rewrite (M_bind_Ok _ _ _ _ _ Hg). run_M. f_equal.
  cbn [DRF.model RecipeViewSet.viewset DRF.pk_of DRF.delete_row].
  unfold db1, set_recipe_rows. cbn [recipe_rows users tokens tag_rows
    ingredient_rows].
  rewrite List.filter_app. simpl.
  rewrite bool_decide_eq_false_2 by (by intros []).
  rewrite app_nil_r, filter_all; [by destruct db|].
  intros x Hx. apply bool_decide_eq_true. specialize (Hfresh _ Hx). lia.
Qed.

Lemma create_then_delete_restores_witness :
  (recipe ← Tests.create_recipe Sample.alice {["price" := ORM.VInt 899]};
   DRF.destroy RecipeViewSet.viewset
     (mkSelf (request (Sample.self [])) "destroy" (Recipe.id recipe)))
    Sample.db
  = (Ok (DRF.mkResponse 204 []), Sample.db).
Proof.
  apply create_then_delete_restores.
  - by apply map_Forall_singleton.
  - reflexivity.
  - reflexivity.
  - reflexivity.
Defined.
